(** * DataHub: cached OHLCV retrieval with a synthetic fallback

    Shallow embedding of [project100x/src/datahub.py].

    - A pandas [DataFrame] of daily bars is a list of rows ([Series]).
    - A timestamp at daily resolution is its day number ([Z], days since
      1970-01-01); [ymd] builds one from a calendar date.
    - Prices are exact rationals ([Q]): the arithmetic of the generator is
      the arithmetic of the source with the rounding, overflow and
      underflow of binary64 left out. The theorems on prices below use
      order and sign only, which rounding keeps.
    - [np.random] is a generator state threaded through every draw; the
      yfinance provider is an oracle with a state of its own that either
      returns rows or raises.
    - The file system maps a path to the series its CSV file holds: what
      [to_csv] writes is what [read_csv] reads, and the text of the file
      is not modelled. Directories, and with them the [os.makedirs] of
      [__init__], are left out: a write is modelled where its directory
      exists, and two spellings of one path count as two files. Theorems
      that depend on a first write or on files being distinct are stated
      for a [plain_symbol], for which this is how the code behaves.
    - Every method is a computation on a [World] that returns a value or
      raises; [print] appends to the console output. *)

From Stdlib Require Import ZArith QArith Qminmax Lia Lqa List String.
From stdpp Require Import base list list_numbers sorting gmap strings.

Local Open Scope Z_scope.

(** ** Dates *)

Module Dates.

(** Day number of a proleptic Gregorian calendar date. *)
Definition ymd (y m d : Z) : Z :=
  let y' := if m <=? 2 then y - 1 else y in
  let era := y' / 400 in
  let yoe := y' - era * 400 in
  let mp := if m <=? 2 then m + 9 else m - 3 in
  let doy := (153 * mp + 2) / 5 + d - 1 in
  let doe := yoe * 365 + yoe / 4 - yoe / 100 + doy in
  era * 146097 + doe - 719468.

(** [pd.date_range(start=start, end=end, freq='D')]: every day from
    [start] to [end] inclusive, empty when [end] is before [start]. *)
Definition date_range (start_date end_date : Z) : list Z :=
  seqZ start_date (end_date - start_date + 1).

End Dates.

Export Dates.

(** ** Bars and series *)

Record Bar := mkBar {
  Date : Z;
  Open : Q;
  High : Q;
  Low : Q;
  Close : Q;
  Volume : Z
}.

(** A data frame of daily bars, in index order. *)
Abbreviation Series := (list Bar).

(** [df.empty] *)
Definition empty (df : Series) : bool :=
  match df with [] => true | _ :: _ => false end.

(** [df[(df.index >= start) & (df.index <= end)]] *)
Definition filter_range (df : Series) (start_date end_date : Z) : Series :=
  List.filter (fun b => (start_date <=? Date b) && (Date b <=? end_date)) df.

(** [pd.DataFrame({'Open': o, 'High': h, 'Low': l, 'Close': c,
    'Volume': v}, index=idx)] for columns of the length of the index. *)
Fixpoint DataFrame (idx : list Z) (o h l c : list Q) (v : list Z) : Series :=
  match idx, o, h, l, c, v with
  | d :: idx', o1 :: o', h1 :: h', l1 :: l', c1 :: c', v1 :: v' =>
      mkBar d o1 h1 l1 c1 v1 :: DataFrame idx' o' h' l' c' v'
  | _, _, _, _, _, _ => []
  end.

(** The OHLC ordering of one bar. *)
Definition ohlc_ordered (b : Bar) : Prop :=
  (Low b <= Qmin (Open b) (Close b))%Q ∧ (Qmax (Open b) (Close b) <= High b)%Q.

(** Rows in strictly increasing order of date. *)
Definition increasing (df : Series) : Prop :=
  StronglySorted (λ a b, Date a < Date b) df.

Definition prices_positive (b : Bar) : Prop :=
  (0 < Open b)%Q ∧ (0 < High b)%Q ∧ (0 < Low b)%Q ∧ (0 < Close b)%Q.

(** ** Exceptions, console output and outcomes *)

Inductive Exn :=
  | ProviderError (what : string)
  | FileNotFound (path : string).

(** The messages the hub prints, one constructor per [print] of the source. *)
Inductive Msg :=
  | Downloading (ticker : string) (start_date end_date : Z)
  | NoData (ticker : string)
  | DownloadError (ticker : string) (e : Exn)
  | Generating (ticker : string) (start_date end_date : Z)
  | NotCovered (ticker : string) (start_date end_date : Z)
  | FailedAgain.

Inductive Outcome (A : Type) :=
  | Return (a : A)
  | Raise (e : Exn).

Arguments Return {A} a.
Arguments Raise {A} e.

(** [os.path.join(a, b)] on POSIX paths. *)
Definition path_join (a b : string) : string :=
  if String.prefix "/" b then b
  else if (String.length a =? 0)%nat then b
  else if String.eqb (String.substring (String.length a - 1) 1 a) "/"
       then (a ++ b)%string
       else (a ++ "/" ++ b)%string.

Record DataHub := mkDataHub { data_path : string }.

(** The file of a symbol: [os.path.join(self.data_path, f"{ticker}.csv")]. *)
Definition csv_path (self : DataHub) (ticker : string) : string :=
  path_join (data_path self) (ticker ++ ".csv").

(** [DataHub()]: the constructor of lines 8-10 with its default path. *)
Definition DataHub_default : DataHub := mkDataHub "project100x/data/raw".

(** [df.head()]: the first five rows. *)
Definition head (df : Series) : Series := take 5 df.

(** The characters of a plain symbol: capital letters, digits and
    [-], [^], [=], [_]. *)
Definition symbol_char (c : Ascii.ascii) : bool :=
  let n := Ascii.N_of_ascii c in
  ((65 <=? n) && (n <=? 90) || (48 <=? n) && (n <=? 57)
   || (n =? 45) || (n =? 94) || (n =? 61) || (n =? 95))%N.

(** A symbol that names a file of its own directly in the hub's
    directory: one to 32 plain characters, so no path separator, no
    [.] or [..] component and no second spelling of the same file. For
    such a symbol the directory of [csv_path] is [data_path], which
    [__init__] has created, and the writes of lines 72 and 81 find it. *)
Definition plain_symbol (ticker : string) : bool :=
  (0 <? String.length ticker)%nat && (String.length ticker <=? 32)%nat
  && forallb symbol_char (list_ascii_of_string ticker).

(** The provider raised or had no rows. *)
Definition unusable (r : Outcome Series) : bool :=
  match r with
  | Raise _ => true
  | Return df => empty df
  end.

(** ** The model *)

Section Model.

(** The state of [np.random] and its two draws. *)
Variable RNG : Type.
Variable uniform : Q → Q → RNG → Q * RNG.
Variable randint : Z → Z → RNG → Z * RNG.

(** [np.random.uniform(lo, hi, n)] *)
Fixpoint uniform_n (lo hi : Q) (n : nat) (g : RNG) : list Q * RNG :=
  match n with
  | O => ([], g)
  | S n' =>
      let (x, g1) := uniform lo hi g in
      let (xs, g2) := uniform_n lo hi n' g1 in
      (x :: xs, g2)
  end.

(** [np.random.randint(lo, hi, n)] *)
Fixpoint randint_n (lo hi : Z) (n : nat) (g : RNG) : list Z * RNG :=
  match n with
  | O => ([], g)
  | S n' =>
      let (x, g1) := randint lo hi g in
      let (xs, g2) := randint_n lo hi n' g1 in
      (x :: xs, g2)
  end.

(** The loop of lines 34-37: [k] further prices after [last], each the
    previous one times [1 + uniform(-0.005, 0.01)]. *)
Fixpoint price_walk (k : nat) (last : Q) (g : RNG) : list Q * RNG :=
  match k with
  | O => ([], g)
  | S k' =>
      let (d, g1) := uniform (-0.005) 0.01 g in
      let next_price := (last * (1 + d))%Q in
      let (rest, g2) := price_walk k' next_price g1 in
      (next_price :: rest, g2)
  end.

(** [prices * (1 + noise)] on arrays; an array of length one against an
    empty one broadcasts to the empty array. *)
Definition scale_up (prices noise : list Q) : list Q :=
  zip_with (fun p x => (p * (1 + x))%Q) prices noise.

Definition scale_down (prices noise : list Q) : list Q :=
  zip_with (fun p x => (p * (1 - x))%Q) prices noise.

(** [np.maximum], [np.minimum] *)
Definition maximum (a b : list Q) : list Q := zip_with Qmax a b.
Definition minimum (a b : list Q) : list Q := zip_with Qmin a b.

(** Lines 27-66: the body of [_generate_simulated_ohlcv] as a function
    of the generator state. *)
Definition simulated_ohlcv (ticker : string)
    (start_date end_date : Z) (g : RNG) : Series * RNG :=
  let dates := date_range start_date end_date in
  let n := length dates in
  let (initial_price, g1) := uniform 50 200 g in
  let (walk, g2) := price_walk (n - 1) initial_price g1 in
  let prices := initial_price :: walk in
  let (on, g3) := uniform_n (-0.002) 0.002 n g2 in
  let open_prices := scale_up prices on in
  let (cn, g4) := uniform_n (-0.002) 0.002 n g3 in
  let close_prices := scale_up prices cn in
  let (hn, g5) := uniform_n 0.001 0.005 n g4 in
  let high_prices := scale_up (maximum open_prices close_prices) hn in
  let (ln, g6) := uniform_n 0.001 0.005 n g5 in
  let low_prices := scale_down (minimum open_prices close_prices) ln in
  let high_prices := maximum high_prices (maximum open_prices close_prices) in
  let low_prices := minimum low_prices (minimum open_prices close_prices) in
  let (volume, g7) := randint_n 100000 10000000 n g6 in
  (DataFrame dates open_prices high_prices low_prices close_prices volume, g7).

(** *** The world of one hub: files, generator state, provider *)

Variable Net : Type.
Variable yf_download : string → Z → Z → Net → Outcome Series * Net.

Record World := mkWorld {
  files : gmap string Series;
  rng : RNG;
  net : Net;
  yf_calls : list (string * Z * Z);
  stdout : list Msg
}.

Definition M (A : Type) : Type := World → Outcome A * World.

#[local] Instance M_ret : MRet M := λ A a w, (Return a, w).

#[local] Instance M_bind : MBind M := λ A B f m w,
  match m w with
  | (Return a, w') => f a w'
  | (Raise e, w') => (Raise e, w')
  end.

(** [try: body except Exception as e: handler(e)] *)
Definition try_except {A} (body : M A) (handler : Exn → M A) : M A :=
  λ w, match body w with
       | (Return a, w') => (Return a, w')
       | (Raise e, w') => handler e w'
       end.

Definition print (m : Msg) : M unit :=
  λ w, (Return (), mkWorld (files w) (rng w) (net w) (yf_calls w) (stdout w ++ [m])).

(** [yf.download(ticker, start=start_date, end=end_date)]; the call is
    recorded in [yf_calls]. *)
Definition yf_download_call (ticker : string) (start_date end_date : Z) : M Series :=
  λ w, let (r, n) := yf_download ticker start_date end_date (net w) in
       (r, mkWorld (files w) (rng w) n
             (yf_calls w ++ [(ticker, start_date, end_date)]) (stdout w)).

Definition path_exists (file_path : string) : M bool :=
  λ w, (Return (bool_decide (is_Some (files w !! file_path))), w).

(** [df.to_csv(file_path)] *)
Definition to_csv (df : Series) (file_path : string) : M unit :=
  λ w, (Return (), mkWorld (<[file_path := df]> (files w)) (rng w) (net w)
                     (yf_calls w) (stdout w)).

(** [pd.read_csv(file_path, index_col='Date', parse_dates=True)] *)
Definition read_csv (file_path : string) : M Series :=
  λ w, match files w !! file_path with
       | Some df => (Return df, w)
       | None => (Raise (FileNotFound file_path), w)
       end.

(** A computation that only draws from [np.random]. *)
Definition np_random {A} (f : RNG → A * RNG) : M A :=
  λ w, let (a, g) := f (rng w) in
       (Return a, mkWorld (files w) g (net w) (yf_calls w) (stdout w)).

Definition _generate_simulated_ohlcv (self : DataHub) (ticker : string)
    (start_date end_date : Z) : M Series :=
  print (Generating ticker start_date end_date);;
  np_random (simulated_ohlcv ticker start_date end_date).

Definition _download_ohlcv (self : DataHub) (ticker : string)
    (start_date end_date : Z) : M Series :=
  print (Downloading ticker start_date end_date);;
  try_except
    (df ← yf_download_call ticker start_date end_date;
     if empty df then
       print (NoData ticker);;
       _generate_simulated_ohlcv self ticker start_date end_date
     else
       mret df)
    (λ e,
       print (DownloadError ticker e);;
       _generate_simulated_ohlcv self ticker start_date end_date).

Definition get_ohlcv_data (self : DataHub) (ticker : string)
    (start_date end_date : Z) : M Series :=
  let file_path := path_join (data_path self) (ticker ++ ".csv") in
  present ← path_exists file_path;
  if negb present then
    df ← _download_ohlcv self ticker start_date end_date;
    to_csv df file_path;;
    mret df
  else
    df ← read_csv file_path;
    let df_filtered := filter_range df start_date end_date in
    if empty df_filtered then
      print (NotCovered ticker start_date end_date);;
      df ← _download_ohlcv self ticker start_date end_date;
      if negb (empty df) then
        to_csv df file_path;;
        mret (filter_range df start_date end_date)
      else
        print FailedAgain;;
        mret df_filtered
    else
      mret df_filtered.

(** *** Worlds reached from a world [w], used to state the runs *)

(** The provider was asked and answered with state [n]; [out] was
    printed since. *)
Definition asked (w : World) (ticker : string) (s e : Z) (n : Net)
    (out : list Msg) : World :=
  mkWorld (files w) (rng w) n (yf_calls w ++ [(ticker, s, e)]) (stdout w ++ out).

(** The same, and the synthetic series was drawn. *)
Definition regenerated (w : World) (ticker : string) (s e : Z) (n : Net)
    (out : list Msg) : World :=
  mkWorld (files w) (simulated_ohlcv ticker s e (rng w)).2 n
    (yf_calls w ++ [(ticker, s, e)]) (stdout w ++ out).

Definition saved (w : World) (file_path : string) (df : Series) : World :=
  mkWorld (<[file_path := df]> (files w)) (rng w) (net w) (yf_calls w) (stdout w).

Definition printed (w : World) (m : Msg) : World :=
  mkWorld (files w) (rng w) (net w) (yf_calls w) (stdout w ++ [m]).

(** *** The script *)

(** The [__main__] block of lines 89-92: a hub on the default path, one
    request for QQQ, and [qqq_data.head()], the table handed to [print],
    as the value. *)
Definition main : M Series :=
  let data_hub := DataHub_default in
  qqq_data ← get_ohlcv_data data_hub "QQQ" (ymd 2020 1 1) (ymd 2020 1 5);
  mret (head qqq_data).

End Model.

Arguments uniform_n {RNG} uniform lo hi n g.
Arguments randint_n {RNG} randint lo hi n g.
Arguments price_walk {RNG} uniform k last g.
Arguments simulated_ohlcv {RNG} uniform randint ticker start_date end_date g.
Arguments mkWorld {RNG Net} files rng net yf_calls stdout.
Arguments files {RNG Net} w.
Arguments rng {RNG Net} w.
Arguments net {RNG Net} w.
Arguments yf_calls {RNG Net} w.
Arguments stdout {RNG Net} w.
Arguments _generate_simulated_ohlcv {RNG} uniform randint {Net} self ticker start_date end_date w.
Arguments _download_ohlcv {RNG} uniform randint {Net} yf_download self ticker start_date end_date w.
Arguments get_ohlcv_data {RNG} uniform randint {Net} yf_download self ticker start_date end_date w.
Arguments asked {RNG Net} w ticker s e n out.
Arguments regenerated {RNG} uniform randint {Net} w ticker s e n out.
Arguments saved {RNG Net} w file_path df.
Arguments printed {RNG Net} w m.
Arguments main {RNG} uniform randint {Net} yf_download w.

(** ** Concrete generators, providers and worlds *)

Module Demo.

(** A linear congruential generator standing for [np.random]. *)
Definition lcg_next (g : Z) : Z := (g * 1103515245 + 12345) mod 2147483648.

Definition lcg_uniform (lo hi : Q) (g : Z) : Q * Z :=
  ((lo + (hi - lo) * ((g mod 1024) # 1024))%Q, lcg_next g).

Definition lcg_randint (lo hi : Z) (g : Z) : Z * Z :=
  (lo + g mod (hi - lo), lcg_next g).

(** Providers: one that always raises, one that never has data, and one
    that answers every request with two fixed rows. *)
Definition failing (ticker : string) (s e : Z) (n : unit) : Outcome Series * unit :=
  (Raise (ProviderError "no network"), n).

Definition no_rows (ticker : string) (s e : Z) (n : unit) : Outcome Series * unit :=
  (Return [], n).

Definition bar_at (d : Z) : Bar := mkBar d 10 12 9 11 1000.

Definition two_rows (ticker : string) (s e : Z) (n : unit) : Outcome Series * unit :=
  (Return [bar_at (ymd 2020 1 3); bar_at (ymd 2020 1 6)], n).

Definition hub : DataHub := mkDataHub "project100x/data/raw".

Definition fresh : World Z unit := mkWorld ∅ 42 () [] [].

Definition xyz_path : string := "project100x/data/raw/XYZ.csv".

(** A file that holds two days of January 2020. *)
Definition two_days : Series := [bar_at (ymd 2020 1 2); bar_at (ymd 2020 1 3)].

Definition partly_cached : World Z unit :=
  mkWorld {[xyz_path := two_days]} 42 () [] [].

(** A file that holds the same two days and a day later in the month. *)
Definition three_days : Series :=
  [bar_at (ymd 2020 1 2); bar_at (ymd 2020 1 3); bar_at (ymd 2020 1 20)].

Definition cached_wider : World Z unit :=
  mkWorld {[xyz_path := three_days]} 42 () [] [].

(** A file that holds one day of 2019. *)
Definition stale : World Z unit :=
  mkWorld {[xyz_path := [bar_at (ymd 2019 6 1)]]} 42 () [] [].

End Demo.

Example ymd_epoch : ymd 1970 1 1 = 0.
Proof. reflexivity. Qed.

Example ymd_leap_day : ymd 2020 3 1 - ymd 2020 2 28 = 2.
Proof. reflexivity. Qed.

Example path_join_xyz :
  path_join (data_path Demo.hub) ("XYZ" ++ ".csv") = Demo.xyz_path.
Proof. reflexivity. Qed.

Example demo_fallback_dates :
  Date <$> (simulated_ohlcv Demo.lcg_uniform Demo.lcg_randint "XYZ"
              (ymd 2020 1 1) (ymd 2020 1 5) 42).1
  = [18262; 18263; 18264; 18265; 18266].
Proof. vm_compute. reflexivity. Qed.

(** ** Columns and data frames *)

Lemma DataFrame_lookup idx o h l c v (i : nat) (b : Bar) :
  DataFrame idx o h l c v !! i = Some b →
  idx !! i = Some (Date b) ∧ o !! i = Some (Open b) ∧ h !! i = Some (High b) ∧
  l !! i = Some (Low b) ∧ c !! i = Some (Close b) ∧ v !! i = Some (Volume b).
Proof.
  revert o h l c v i.
  induction idx as [|d idx IH]; intros o h l c v i; [done|].
  destruct o as [|o1 o], h as [|h1 h], l as [|l1 l], c as [|c1 c], v as [|v1 v];
    try done.
  destruct i as [|i]; simpl.
  - intros [= <-]. done.
  - apply IH.
Qed.

Lemma DataFrame_dates idx o h l c v :
  length o = length idx → length h = length idx → length l = length idx →
  length c = length idx → length v = length idx →
  Date <$> DataFrame idx o h l c v = idx.
Proof.
  revert o h l c v.
  induction idx as [|d idx IH]; intros o h l c v Ho Hh Hl Hc Hv; [done|].
  destruct o as [|o1 o], h as [|h1 h], l as [|l1 l], c as [|c1 c], v as [|v1 v];
    try done.
  simpl in *. f_equal. apply IH; lia.
Qed.

Section GeneratorFacts.

Context {RNG : Type}.
Variable uniform : Q → Q → RNG → Q * RNG.
Variable randint : Z → Z → RNG → Z * RNG.

Lemma length_uniform_n lo hi n g : length (uniform_n uniform lo hi n g).1 = n.
Proof.
  revert g. induction n as [|n IH]; intros g; simpl; [done|].
  destruct (uniform lo hi g) as [x g1].
  specialize (IH g1). destruct (uniform_n uniform lo hi n g1). simpl in *. lia.
Qed.

Lemma length_randint_n lo hi n g : length (randint_n randint lo hi n g).1 = n.
Proof.
  revert g. induction n as [|n IH]; intros g; simpl; [done|].
  destruct (randint lo hi g) as [x g1].
  specialize (IH g1). destruct (randint_n randint lo hi n g1). simpl in *. lia.
Qed.

Lemma length_price_walk k last g : length (price_walk uniform k last g).1 = k.
Proof.
  revert last g. induction k as [|k IH]; intros last g; simpl; [done|].
  destruct (uniform _ _ g) as [d g1].
  specialize (IH (last * (1 + d))%Q g1).
  destruct (price_walk uniform k _ g1). simpl in *. lia.
Qed.

Lemma length_date_range s e : length (date_range s e) = Z.to_nat (e - s + 1).
Proof. apply length_seqZ. Qed.

(** The draws of one run, in the order of the source, and the data frame
    built from them. *)
Lemma simulated_ohlcv_frame ticker s e g :
  let n := length (date_range s e) in
  ∃ p0 g1 walk g2 on g3 cn g4 hn g5 ln g6 vol g7,
    uniform 50 200 g = (p0, g1)
    ∧ price_walk uniform (n - 1) p0 g1 = (walk, g2)
    ∧ uniform_n uniform (-0.002) 0.002 n g2 = (on, g3)
    ∧ uniform_n uniform (-0.002) 0.002 n g3 = (cn, g4)
    ∧ uniform_n uniform 0.001 0.005 n g4 = (hn, g5)
    ∧ uniform_n uniform 0.001 0.005 n g5 = (ln, g6)
    ∧ randint_n randint 100000 10000000 n g6 = (vol, g7)
    ∧ let op := scale_up (p0 :: walk) on in
      let cl := scale_up (p0 :: walk) cn in
      simulated_ohlcv uniform randint ticker s e g =
        (DataFrame (date_range s e) op
           (maximum (scale_up (maximum op cl) hn) (maximum op cl))
           (minimum (scale_down (minimum op cl) ln) (minimum op cl)) cl vol,
         g7).
Proof.
  intros n. subst n. unfold simulated_ohlcv. cbv zeta.
  destruct (uniform 50 200 g) as [p0 g1] eqn:E0.
  destruct (price_walk uniform _ p0 g1) as [walk g2] eqn:E1.
  destruct (uniform_n uniform _ _ _ g2) as [on g3] eqn:E2.
  destruct (uniform_n uniform _ _ _ g3) as [cn g4] eqn:E3.
  destruct (uniform_n uniform _ _ _ g4) as [hn g5] eqn:E4.
  destruct (uniform_n uniform _ _ _ g5) as [ln g6] eqn:E5.
  destruct (randint_n randint _ _ _ g6) as [vol g7] eqn:E6.
  exists p0, g1, walk, g2, on, g3, cn, g4, hn, g5, ln, g6, vol, g7.
  repeat (split; [reflexivity || assumption|]). reflexivity.
Qed.

(** Every column has one entry per calendar day. *)
Lemma simulated_ohlcv_dates ticker s e g :
  Date <$> (simulated_ohlcv uniform randint ticker s e g).1 = date_range s e.
Proof.
  destruct (simulated_ohlcv_frame ticker s e g)
    as (p0 & g1 & walk & g2 & on & g3 & cn & g4 & hn & g5 & ln & g6 & vol & g7
        & _ & Hw & Hon & Hcn & Hhn & Hln & Hv & ->).
  apply (f_equal fst) in Hw, Hon, Hcn, Hhn, Hln, Hv.
  apply (f_equal length) in Hw, Hon, Hcn, Hhn, Hln.
  apply (f_equal length) in Hv.
  rewrite length_price_walk in Hw.
  rewrite length_uniform_n in Hon, Hcn, Hhn, Hln.
  rewrite length_randint_n in Hv.
  cbn [fst] in *.
  apply DataFrame_dates;
    unfold maximum, minimum, scale_up, scale_down;
    rewrite ?length_zip_with, ?length_cons; lia.
Qed.

End GeneratorFacts.

(** ** The clamp of lines 50 and 52 *)

Lemma clamp_high_lookup hc op cl (i : nat) (h o c : Q) :
  maximum hc (maximum op cl) !! i = Some h →
  op !! i = Some o → cl !! i = Some c → (Qmax o c <= h)%Q.
Proof.
  unfold maximum. intros Hh Ho Hc.
  apply lookup_zip_with_Some in Hh as (x & y & -> & _ & Hy).
  apply lookup_zip_with_Some in Hy as (o' & c' & -> & Ho' & Hc').
  simplify_eq. apply Q.le_max_r.
Qed.

Lemma clamp_low_lookup lc op cl (i : nat) (l o c : Q) :
  minimum lc (minimum op cl) !! i = Some l →
  op !! i = Some o → cl !! i = Some c → (l <= Qmin o c)%Q.
Proof.
  unfold minimum. intros Hl Ho Hc.
  apply lookup_zip_with_Some in Hl as (x & y & -> & _ & Hy).
  apply lookup_zip_with_Some in Hy as (o' & c' & -> & Ho' & Hc').
  simplify_eq. apply Q.le_min_r.
Qed.

(** The ordering in its two spellings. *)
Lemma ohlc_ordered_spelled (b : Bar) :
  ohlc_ordered b →
  (Low b <= Open b <= High b)%Q ∧ (Low b <= Close b <= High b)%Q
  ∧ (Low b <= High b)%Q.
Proof.
  intros [Hl Hh].
  pose proof (Q.le_min_l (Open b) (Close b)).
  pose proof (Q.le_min_r (Open b) (Close b)).
  pose proof (Q.le_max_l (Open b) (Close b)).
  pose proof (Q.le_max_r (Open b) (Close b)).
  repeat split; eauto using Qle_trans.
Qed.

Section MethodFacts.

Context {RNG Net : Type}.
Variable uniform : Q → Q → RNG → Q * RNG.
Variable randint : Z → Z → RNG → Z * RNG.

(** The method prints its notice and draws the series. *)
Lemma _generate_simulated_ohlcv_run self ticker s e (w : World RNG Net) :
  _generate_simulated_ohlcv uniform randint self ticker s e w =
    (Return (simulated_ohlcv uniform randint ticker s e (rng w)).1,
     mkWorld (files w) (simulated_ohlcv uniform randint ticker s e (rng w)).2
       (net w) (yf_calls w) (stdout w ++ [Generating ticker s e])).
Proof.
  unfold _generate_simulated_ohlcv, mbind, M_bind, print, np_random. simpl.
  by destruct (simulated_ohlcv uniform randint ticker s e (rng w)).
Qed.

Lemma simulated_ohlcv_ordered ticker s e g :
  Forall ohlc_ordered (simulated_ohlcv uniform randint ticker s e g).1.
Proof.
  destruct (simulated_ohlcv_frame uniform randint ticker s e g)
    as (p0 & g1 & walk & g2 & on & g3 & cn & g4 & hn & g5 & ln & g6 & vol & g7
        & _ & _ & _ & _ & _ & _ & _ & ->).
  cbn [fst]. apply Forall_lookup. intros i b Hb.
  apply DataFrame_lookup in Hb as (_ & Ho & Hh & Hl & Hc & _).
  split.
  - eapply clamp_low_lookup; eauto.
  - eapply clamp_high_lookup; eauto.
Qed.

(** C1: every bar the synthetic generator produces, for any symbol and
    any date range, satisfies the OHLC ordering: low ≤ min(open, close)
    and max(open, close) ≤ high, that is low ≤ open ≤ high,
    low ≤ close ≤ high and low ≤ high, whatever the random draws are. *)
Theorem generated_bars_ohlc_ordered self ticker s e (w : World RNG Net) :
  ∃ df w',
    _generate_simulated_ohlcv uniform randint self ticker s e w = (Return df, w')
    ∧ ∀ b, b ∈ df →
        (Low b <= Qmin (Open b) (Close b))%Q
        ∧ (Qmax (Open b) (Close b) <= High b)%Q
        ∧ (Low b <= Open b <= High b)%Q
        ∧ (Low b <= Close b <= High b)%Q
        ∧ (Low b <= High b)%Q.
Proof.
  eexists _, _. split; [apply _generate_simulated_ohlcv_run|].
  intros b Hb.
  pose proof (simulated_ohlcv_ordered ticker s e (rng w)) as Hall.
  rewrite Forall_forall in Hall. specialize (Hall b Hb).
  destruct (ohlc_ordered_spelled b Hall) as (? & ? & ?).
  destruct Hall. done.
Qed.

(** C2: for start ≤ end the synthetic generator returns exactly
    (end - start).days + 1 bars, one per calendar day from start to end
    inclusive: the i-th bar is dated start + i, dates increase strictly
    and no date occurs twice. *)
Theorem generated_series_shape self ticker s e (w : World RNG Net) :
  s ≤ e →
  ∃ df w',
    _generate_simulated_ohlcv uniform randint self ticker s e w = (Return df, w')
    ∧ Z.of_nat (length df) = e - s + 1
    ∧ (∀ (i : nat) b, df !! i = Some b → Date b = s + Z.of_nat i)
    ∧ (∀ d, s ≤ d ≤ e → ∃ b, b ∈ df ∧ Date b = d)
    ∧ (∀ (i j : nat) bi bj,
         df !! i = Some bi → df !! j = Some bj → (i < j)%nat → Date bi < Date bj)
    ∧ NoDup (Date <$> df).
Proof.
  intros Hse.
  eexists _, _. split; [apply _generate_simulated_ohlcv_run|].
  pose proof (simulated_ohlcv_dates uniform randint ticker s e (rng w)) as Hd.
  set (df := (simulated_ohlcv uniform randint ticker s e (rng w)).1) in *.
  assert (Hix : ∀ (i : nat) b, df !! i = Some b → Date b = s + Z.of_nat i).
  { intros i b Hb.
    assert (Hi : (Date <$> df) !! i = Some (Date b))
      by (by rewrite list_lookup_fmap, Hb).
    rewrite Hd in Hi. unfold date_range in Hi.
    apply lookup_seqZ in Hi. tauto. }
  repeat split.
  - rewrite <- (length_fmap Date), Hd, length_date_range. lia.
  - exact Hix.
  - intros d Hdr.
    assert (Hin : d ∈ Date <$> df).
    { rewrite Hd. unfold date_range. apply elem_of_seqZ. lia. }
    apply list_elem_of_fmap in Hin as (b & -> & Hb). eauto.
  - intros i j bi bj Hi Hj Hlt.
    rewrite (Hix _ _ Hi), (Hix _ _ Hj). lia.
  - rewrite Hd. apply NoDup_seqZ.
Qed.

End MethodFacts.

(** ** Positive prices *)

Section PositivePrices.

Context {RNG Net : Type}.
Variable uniform : Q → Q → RNG → Q * RNG.
Variable randint : Z → Z → RNG → Z * RNG.

(** [np.random.uniform(lo, hi)] lies between its bounds. *)
Hypothesis uniform_range :
  ∀ lo hi g, (lo <= hi)%Q → (lo <= (uniform lo hi g).1 <= hi)%Q.

Lemma uniform_n_range lo hi n g :
  (lo <= hi)%Q →
  Forall (λ x, (lo <= x <= hi)%Q) (uniform_n uniform lo hi n g).1.
Proof.
  intros Hle. revert g. induction n as [|n IH]; intros g; simpl; [constructor|].
  pose proof (uniform_range lo hi g Hle) as Hx.
  destruct (uniform lo hi g) as [x g1].
  specialize (IH g1). destruct (uniform_n uniform lo hi n g1).
  by constructor.
Qed.

(** Every drift factor is at least 0.995, so the walk stays positive. *)
Lemma price_walk_positive k last g :
  (0 < last)%Q → Forall (Qlt 0) (price_walk uniform k last g).1.
Proof.
  revert last g. induction k as [|k IH]; intros last g Hpos; simpl; [constructor|].
  assert (Hr : (-0.005 <= 0.01)%Q) by lra.
  pose proof (uniform_range _ _ g Hr) as Hd.
  destruct (uniform (-0.005) 0.01 g) as [d g1]. cbn [fst] in Hd.
  assert (Hnext : (0 < last * (1 + d))%Q)
    by (apply Qmult_lt_0_compat; lra).
  specialize (IH _ g1 Hnext).
  destruct (price_walk uniform k _ g1). by constructor.
Qed.

Lemma scale_up_positive prices noise (i : nat) (x : Q) :
  Forall (Qlt 0) prices →
  Forall (λ x, (-0.002 <= x <= 0.002)%Q) noise →
  scale_up prices noise !! i = Some x → (0 < x)%Q.
Proof.
  intros Hp Hn Hx. unfold scale_up in Hx.
  apply lookup_zip_with_Some in Hx as (p & u & -> & Hpi & Hui).
  rewrite Forall_lookup in Hp. rewrite Forall_lookup in Hn.
  specialize (Hp _ _ Hpi). specialize (Hn _ _ Hui). cbv beta in Hn.
  apply Qmult_lt_0_compat; lra.
Qed.

(** The low factor lies in [0.995, 0.999]: the clamped low is the smaller
    of two positive numbers. *)
Lemma clamp_low_positive op cl ln (i : nat) (l o c : Q) :
  Forall (λ x, (0.001 <= x <= 0.005)%Q) ln →
  minimum (scale_down (minimum op cl) ln) (minimum op cl) !! i = Some l →
  op !! i = Some o → cl !! i = Some c → (0 < o)%Q → (0 < c)%Q → (0 < l)%Q.
Proof.
  intros Hn Hl Ho Hc Hpo Hpc. unfold minimum at 1 in Hl.
  apply lookup_zip_with_Some in Hl as (x & y & -> & Hx & Hy).
  unfold scale_down in Hx.
  apply lookup_zip_with_Some in Hx as (m & u & -> & Hm & Hu).
  unfold minimum in Hm, Hy.
  apply lookup_zip_with_Some in Hm as (o1 & c1 & -> & Ho1 & Hc1).
  apply lookup_zip_with_Some in Hy as (o2 & c2 & -> & Ho2 & Hc2).
  assert (o1 = o) as -> by congruence. assert (c1 = c) as -> by congruence.
  assert (o2 = o) as -> by congruence. assert (c2 = c) as -> by congruence.
  rewrite Forall_lookup in Hn. specialize (Hn _ _ Hu). cbv beta in Hn.
  assert (Hmin : (0 < Qmin o c)%Q) by by apply Q.min_glb_lt.
  apply Q.min_glb_lt; [|done].
  apply Qmult_lt_0_compat; [done|lra].
Qed.

Lemma simulated_ohlcv_positive ticker s e g :
  Forall prices_positive (simulated_ohlcv uniform randint ticker s e g).1.
Proof.
  destruct (simulated_ohlcv_frame uniform randint ticker s e g)
    as (p0 & g1 & walk & g2 & on & g3 & cn & g4 & hn & g5 & ln & g6 & vol & g7
        & E0 & Ew & Eon & Ecn & _ & Eln & _ & ->).
  assert (Hp0 : (0 < p0)%Q).
  { assert (Hr : (50 <= 200)%Q) by lra.
    pose proof (uniform_range _ _ g Hr) as H0. rewrite E0 in H0.
    cbn [fst] in H0. lra. }
  assert (Hprices : Forall (Qlt 0) (p0 :: walk)).
  { constructor; [done|].
    pose proof (price_walk_positive (length (date_range s e) - 1) p0 g1 Hp0) as Hw.
    by rewrite Ew in Hw. }
  assert (Hon : Forall (λ x, (-0.002 <= x <= 0.002)%Q) on).
  { assert (Hr : (-0.002 <= 0.002)%Q) by lra.
    pose proof (uniform_n_range _ _ (length (date_range s e)) g2 Hr) as H.
    by rewrite Eon in H. }
  assert (Hcn : Forall (λ x, (-0.002 <= x <= 0.002)%Q) cn).
  { assert (Hr : (-0.002 <= 0.002)%Q) by lra.
    pose proof (uniform_n_range _ _ (length (date_range s e)) g3 Hr) as H.
    by rewrite Ecn in H. }
  assert (Hln : Forall (λ x, (0.001 <= x <= 0.005)%Q) ln).
  { assert (Hr : (0.001 <= 0.005)%Q) by lra.
    pose proof (uniform_n_range _ _ (length (date_range s e)) g5 Hr) as H.
    by rewrite Eln in H. }
  cbn [fst]. apply Forall_lookup. intros i b Hb.
  apply DataFrame_lookup in Hb as (_ & Ho & Hh & Hl & Hc & _).
  assert (Hpo : (0 < Open b)%Q) by eauto using scale_up_positive.
  assert (Hpc : (0 < Close b)%Q) by eauto using scale_up_positive.
  repeat split; try done.
  - pose proof (clamp_high_lookup _ _ _ _ _ _ _ Hh Ho Hc) as Hmax.
    pose proof (Q.le_max_l (Open b) (Close b)) as Hle.
    eapply Qlt_le_trans; [exact Hpo|]. eapply Qle_trans; eauto.
  - eapply clamp_low_positive; eauto.
Qed.

(** C9: every bar of the synthetic generator, for any symbol and any
    range, has strictly positive open, high, low and close: the initial
    price is at least 50 and every later factor (drift, open and close
    noise, high and low factors) is strictly positive. *)
Theorem generated_prices_positive self ticker s e (w : World RNG Net) :
  ∃ df w',
    _generate_simulated_ohlcv uniform randint self ticker s e w = (Return df, w')
    ∧ ∀ b, b ∈ df →
        (0 < Open b)%Q ∧ (0 < High b)%Q ∧ (0 < Low b)%Q ∧ (0 < Close b)%Q.
Proof.
  eexists _, _. split; [apply _generate_simulated_ohlcv_run|].
  intros b Hb.
  pose proof (simulated_ohlcv_positive ticker s e (rng w)) as Hall.
  rewrite Forall_forall in Hall. exact (Hall b Hb).
Qed.

End PositivePrices.

(** ** The download step *)

Section DownloadFacts.

Context {RNG Net : Type}.
Variable uniform : Q → Q → RNG → Q * RNG.
Variable randint : Z → Z → RNG → Z * RNG.
Variable yf_download : string → Z → Z → Net → Outcome Series * Net.

(** One run of [_download_ohlcv], by what the provider answers. *)
Lemma _download_ohlcv_run self ticker s e (w : World RNG Net) :
  _download_ohlcv uniform randint yf_download self ticker s e w =
    match yf_download ticker s e (net w) with
    | (Return [], n) =>
        (Return (simulated_ohlcv uniform randint ticker s e (rng w)).1,
         regenerated uniform randint w ticker s e n
           [Downloading ticker s e; NoData ticker; Generating ticker s e])
    | (Return (b :: df), n) =>
        (Return (b :: df), asked w ticker s e n [Downloading ticker s e])
    | (Raise ex, n) =>
        (Return (simulated_ohlcv uniform randint ticker s e (rng w)).1,
         regenerated uniform randint w ticker s e n
           [Downloading ticker s e; DownloadError ticker ex; Generating ticker s e])
    end.
Proof.
  unfold _download_ohlcv, try_except, yf_download_call, mbind, M_bind, print.
  cbn [files rng net yf_calls stdout].
  destruct (yf_download ticker s e (net w)) as [[[|b df]|ex] n]; cbn [empty].
  - rewrite _generate_simulated_ohlcv_run. unfold regenerated. cbn.
    by rewrite <- !app_assoc.
  - unfold asked, mret, M_ret. done.
  - rewrite _generate_simulated_ohlcv_run. unfold regenerated. cbn.
    by rewrite <- !app_assoc.
Qed.

End DownloadFacts.

(** ** The range filter *)

Lemma filter_range_elem (df : Series) s e b :
  b ∈ filter_range df s e ↔ b ∈ df ∧ s ≤ Date b ≤ e.
Proof.
  unfold filter_range. rewrite !list_elem_of_In, filter_In.
  rewrite andb_true_iff, !Z.leb_le. tauto.
Qed.

Lemma filter_range_reversed (df : Series) s e : e < s → filter_range df s e = [].
Proof.
  intros Hes. destruct (filter_range df s e) as [|b l] eqn:Hf; [done|].
  assert (Hb : b ∈ filter_range df s e) by (rewrite Hf; left).
  apply filter_range_elem in Hb. lia.
Qed.

Lemma filter_range_Forall (P : Bar → Prop) (df : Series) s e :
  Forall P df → Forall P (filter_range df s e).
Proof.
  rewrite !Forall_forall. intros HP b Hb.
  apply filter_range_elem in Hb as [Hb _]. auto.
Qed.

Lemma filter_range_dates (df : Series) s e :
  Date <$> filter_range df s e
  = List.filter (λ d, (s <=? d) && (d <=? e)) (Date <$> df).
Proof.
  unfold filter_range. induction df as [|b df IH]; [done|].
  cbn [List.filter fmap list_fmap].
  destruct ((s <=? Date b) && (Date b <=? e)); cbn [fmap list_fmap]; by rewrite IH.
Qed.

(** The days of [m, m + n - 1] that lie in [s, e]. *)
Lemma filter_seqZ s e m n :
  List.filter (λ d, (s <=? d) && (d <=? e)) (seqZ m n)
  = seqZ (m `max` s) ((m + n - 1) `min` e - m `max` s + 1).
Proof.
  destruct (Z.le_gt_cases n 0) as [Hn|Hn].
  { rewrite !seqZ_nil by lia. done. }
  rewrite <- (Z2Nat.id n) by lia. generalize (Z.to_nat n) as k. clear Hn n.
  intros k. revert m. induction k as [|k IH]; intros m.
  { rewrite !seqZ_nil by lia. done. }
  rewrite (seqZ_cons m) by lia. cbn [List.filter].
  replace (Z.pred (Z.of_nat (S k))) with (Z.of_nat k) by lia.
  rewrite IH.
  destruct (s <=? m) eqn:Hs; destruct (m <=? e) eqn:He; cbn [andb];
    rewrite ?Z.leb_le, ?Z.leb_gt in Hs, He.
  - rewrite (seqZ_cons (m `max` s)) by lia.
    replace (m `max` s) with m by lia. f_equal. f_equal; lia.
  - rewrite !seqZ_nil by lia. done.
  - f_equal; lia.
  - rewrite !seqZ_nil by lia. done.
Qed.

Lemma increasing_filter_range (df : Series) s e :
  increasing df → increasing (filter_range df s e).
Proof.
  unfold increasing, filter_range.
  induction 1 as [|b df Hsorted IH Hall]; [constructor|].
  cbn [List.filter].
  destruct ((s <=? Date b) && (Date b <=? e)); [|exact IH].
  constructor; [exact IH|]. by apply (filter_range_Forall _ df s e).
Qed.

(** A series over consecutive days is increasing. *)
Lemma increasing_consecutive (df : Series) m n :
  Date <$> df = seqZ m n → increasing df.
Proof.
  unfold increasing. revert m n.
  induction df as [|b df IH]; intros m n Hd; [constructor|].
  destruct (Z.le_gt_cases n 0) as [Hn|Hn].
  { by rewrite seqZ_nil in Hd by lia. }
  rewrite fmap_cons, seqZ_cons in Hd by lia. injection Hd as Hb Hrest.
  constructor; [by eapply IH|].
  apply Forall_forall. intros b' Hb'.
  assert (Hin : Date b' ∈ Date <$> df) by (apply list_elem_of_fmap; eauto).
  rewrite Hrest in Hin. apply elem_of_seqZ in Hin. lia.
Qed.

(** The mask of lines 76 and 82 keeps the rows dated within the range,
    and only those, in their order. *)
Lemma filter_range_filter (df : Series) s e :
  filter_range df s e = filter (λ b, s ≤ Date b ≤ e) df.
Proof.
  unfold filter_range. induction df as [|b df IH]; [done|].
  cbn [List.filter]. rewrite filter_cons, IH.
  destruct (decide (s ≤ Date b ≤ e)) as [Hin|Hout].
  - by rewrite (proj2 (Z.leb_le _ _) (proj1 Hin)), (proj2 (Z.leb_le _ _) (proj2 Hin)).
  - destruct (s <=? Date b) eqn:H1; destruct (Date b <=? e) eqn:H2; try done.
    apply Z.leb_le in H1, H2. by destruct Hout.
Qed.

Lemma filter_range_nonempty (df : Series) s e :
  filter_range df s e ≠ [] ↔ ∃ b, b ∈ df ∧ s ≤ Date b ≤ e.
Proof.
  split.
  - destruct (filter_range df s e) as [|b l] eqn:Hf; [done|]. intros _.
    exists b. apply filter_range_elem. rewrite Hf. left.
  - intros (b & Hb) Hnil. apply filter_range_elem in Hb.
    rewrite Hnil in Hb. by apply elem_of_nil in Hb.
Qed.

(** ** The hub *)

Section HubFacts.

Context {RNG Net : Type}.
Variable uniform : Q → Q → RNG → Q * RNG.
Variable randint : Z → Z → RNG → Z * RNG.
Variable yf_download : string → Z → Z → Net → Outcome Series * Net.

Local Abbreviation download := (_download_ohlcv uniform randint yf_download).
Local Abbreviation get := (get_ohlcv_data uniform randint yf_download).
Local Abbreviation synthetic := (simulated_ohlcv uniform randint).

Lemma empty_true (df : Series) : empty df = true ↔ df = [].
Proof. destruct df; split; done. Qed.

Lemma synthetic_nonempty ticker s e g :
  s ≤ e → (synthetic ticker s e g).1 ≠ [].
Proof.
  intros Hse Hnil.
  pose proof (simulated_ohlcv_dates uniform randint ticker s e g) as Hd.
  rewrite Hnil in Hd. apply (f_equal length) in Hd.
  rewrite length_date_range in Hd. simpl in Hd. lia.
Qed.

(** The download step always returns a series; it asks the provider
    once, leaves the files alone and never prints [FailedAgain]. *)
Lemma _download_ohlcv_returns self ticker s e (w : World RNG Net) :
  ∃ df w1 out,
    download self ticker s e w = (Return df, w1)
    ∧ files w1 = files w
    ∧ yf_calls w1 = yf_calls w ++ [(ticker, s, e)]
    ∧ stdout w1 = stdout w ++ out ∧ (FailedAgain ∉ out)
    ∧ (unusable (yf_download ticker s e (net w)).1 = true →
         df = (synthetic ticker s e (rng w)).1)
    ∧ (unusable (yf_download ticker s e (net w)).1 = false →
         yf_download ticker s e (net w) = (Return df, net w1) ∧ rng w1 = rng w)
    ∧ (s ≤ e → df ≠ []).
Proof.
  rewrite _download_ohlcv_run.
  destruct (yf_download ticker s e (net w)) as [[[|b df]|ex] n]; cbn [fst unusable empty].
  - eexists _, _, _. split; [done|]. unfold regenerated; cbn.
    repeat split; try done.
    + rewrite !not_elem_of_cons. repeat split; try done. apply not_elem_of_nil.
    + apply synthetic_nonempty.
  - eexists _, _, _. split; [done|]. unfold asked; cbn.
    repeat split; try done.
    rewrite !not_elem_of_cons. repeat split; try done. apply not_elem_of_nil.
  - eexists _, _, _. split; [done|]. unfold regenerated; cbn.
    repeat split; try done.
    + rewrite !not_elem_of_cons. repeat split; try done. apply not_elem_of_nil.
    + apply synthetic_nonempty.
Qed.

(** No stored file: download, save the whole series, return it. *)
Lemma get_ohlcv_data_fresh self ticker s e (w w1 : World RNG Net) df :
  files w !! csv_path self ticker = None →
  download self ticker s e w = (Return df, w1) →
  get self ticker s e w = (Return df, saved w1 (csv_path self ticker) df).
Proof.
  intros Hnone Hdl.
  unfold get_ohlcv_data, mbind, M_bind, path_exists, to_csv, mret, M_ret.
  fold (csv_path self ticker). rewrite Hnone.
  rewrite bool_decide_eq_false_2 by apply is_Some_None.
  cbn [negb]. by rewrite Hdl.
Qed.

(** A stored file with rows in the range: the rows, nothing else. *)
Lemma get_ohlcv_data_hit self ticker s e (w : World RNG Net) stored :
  files w !! csv_path self ticker = Some stored →
  filter_range stored s e ≠ [] →
  get self ticker s e w = (Return (filter_range stored s e), w).
Proof.
  intros Hsome Hne.
  unfold get_ohlcv_data, mbind, M_bind, path_exists, read_csv, mret, M_ret.
  fold (csv_path self ticker). rewrite Hsome.
  rewrite bool_decide_eq_true_2 by (by eexists).
  cbn [negb]. cbv beta. rewrite Hsome.
  destruct (filter_range stored s e); [done|reflexivity].
Qed.

(** A stored file without rows in the range: download again. *)
Lemma get_ohlcv_data_miss self ticker s e (w w1 : World RNG Net) stored df :
  files w !! csv_path self ticker = Some stored →
  filter_range stored s e = [] →
  download self ticker s e (printed w (NotCovered ticker s e)) = (Return df, w1) →
  get self ticker s e w =
    if empty df then (Return [], printed w1 FailedAgain)
    else (Return (filter_range df s e), saved w1 (csv_path self ticker) df).
Proof.
  intros Hsome Hnil Hdl.
  unfold get_ohlcv_data, mbind, M_bind, path_exists, read_csv, to_csv, print,
    mret, M_ret.
  fold (csv_path self ticker). rewrite Hsome.
  rewrite bool_decide_eq_true_2 by (by eexists).
  cbn [negb]. cbv beta. rewrite Hsome, Hnil. cbn [empty].
  fold (printed w (NotCovered ticker s e)). rewrite Hdl.
  by destruct df.
Qed.

(** Rows that all lie in the range pass the filter unchanged, and the
    synthetic rows do. *)
Lemma filter_range_all (df : Series) s e :
  Forall (λ b, s ≤ Date b ≤ e) df → filter_range df s e = df.
Proof.
  unfold filter_range. induction 1 as [|b df Hb _ IH]; [done|].
  cbn [List.filter].
  rewrite (proj2 (Z.leb_le _ _) (proj1 Hb)), (proj2 (Z.leb_le _ _) (proj2 Hb)).
  cbn [andb]. by rewrite IH.
Qed.

Lemma synthetic_in_range ticker s e g :
  Forall (λ b, s ≤ Date b ≤ e) (synthetic ticker s e g).1.
Proof.
  apply Forall_forall. intros b Hb.
  assert (Hd : Date b ∈ Date <$> (synthetic ticker s e g).1)
    by (apply list_elem_of_fmap; eauto).
  rewrite simulated_ohlcv_dates in Hd. unfold date_range in Hd.
  apply elem_of_seqZ in Hd. lia.
Qed.

(** What does hold of two calls in succession: when the rows of a fresh
    download all lie in the range, the first call returns their slice and
    the second call returns the same rows without asking the provider. *)
Lemma get_ohlcv_data_twice_in_range self ticker s e (w w1 : World RNG Net) df :
  files w !! csv_path self ticker = None →
  download self ticker s e w = (Return df, w1) →
  df ≠ [] → Forall (λ b, s ≤ Date b ≤ e) df →
  let w2 := saved w1 (csv_path self ticker) df in
  get self ticker s e w = (Return (filter_range df s e), w2)
  ∧ get self ticker s e w2 = (Return (filter_range df s e), w2).
Proof.
  intros Hnone Hdl Hne Hin w2.
  rewrite (filter_range_all df s e Hin). split.
  - by apply get_ohlcv_data_fresh.
  - rewrite <- (filter_range_all df s e Hin) at 1.
    apply get_ohlcv_data_hit.
    + unfold w2. cbn [saved files]. apply lookup_insert_eq.
    + by rewrite filter_range_all.
Qed.

(** The hub always returns a series, and for a range with start ≤ end
    it never prints [FailedAgain]. *)
Lemma get_ohlcv_data_returns self ticker s e (w : World RNG Net) :
  ∃ r w' out,
    get self ticker s e w = (Return r, w')
    ∧ stdout w' = stdout w ++ out ∧ (s ≤ e → FailedAgain ∉ out).
Proof.
  destruct (files w !! csv_path self ticker) as [stored|] eqn:Hfile.
  - destruct (filter_range stored s e) as [|b rows] eqn:Hrows.
    + destruct (_download_ohlcv_returns self ticker s e
                  (printed w (NotCovered ticker s e)))
        as (df & w1 & out & Hdl & _ & _ & Hout & Hnot & _ & _ & Hne).
      rewrite (get_ohlcv_data_miss _ _ _ _ _ _ _ _ Hfile Hrows Hdl).
      cbn [printed stdout] in Hout.
      destruct df as [|b df]; cbn [empty].
      * eexists _, _, (NotCovered ticker s e :: out ++ [FailedAgain]).
        split; [done|]. cbn [printed stdout]. rewrite Hout.
        split; [by rewrite <- !app_assoc|]. intros Hse. by destruct (Hne Hse).
      * eexists _, _, (NotCovered ticker s e :: out).
        split; [done|]. cbn [saved stdout]. rewrite Hout.
        split; [by rewrite <- !app_assoc|]. intros _.
        rewrite not_elem_of_cons. done.
    + eexists _, w, []. rewrite app_nil_r. split; [|split; [done|]].
      * apply get_ohlcv_data_hit; [done|by rewrite Hrows].
      * intros _. apply not_elem_of_nil.
  - destruct (_download_ohlcv_returns self ticker s e w)
      as (df & w1 & out & Hdl & _ & _ & Hout & Hnot & _).
    eexists _, _, out. split; [by apply get_ohlcv_data_fresh|]. done.
Qed.

(** C3: when the provider raises or returns no rows for a request with
    start ≤ end, the download step returns the synthetically generated
    series for that range (one bar per day, each with the OHLC ordering),
    and [get_ohlcv_data] returns a series, never the provider's error;
    for 2020-01-01 to 2020-01-05 the series has 5 bars. *)
Theorem provider_failure_falls_back self ticker s e (w : World RNG Net) :
  s ≤ e →
  unusable (yf_download ticker s e (net w)).1 = true →
  ∃ df w1,
    download self ticker s e w = (Return df, w1)
    ∧ df = (synthetic ticker s e (rng w)).1
    ∧ Z.of_nat (length df) = e - s + 1
    ∧ Forall ohlc_ordered df
    ∧ (∃ r w2, get self ticker s e w = (Return r, w2))
    ∧ (files w !! csv_path self ticker = None →
         ∃ w2, get self ticker s e w = (Return df, w2))
    ∧ (s = ymd 2020 1 1 → e = ymd 2020 1 5 → length df = 5%nat).
Proof.
  intros Hse Hbad.
  destruct (_download_ohlcv_returns self ticker s e w)
    as (df & w1 & out & Hdl & _ & _ & _ & _ & Hsyn & _).
  specialize (Hsyn Hbad).
  assert (Hlen : Z.of_nat (length df) = e - s + 1).
  { rewrite Hsyn, <- (length_fmap Date), simulated_ohlcv_dates, length_date_range.
    lia. }
  exists df, w1. repeat split; try done.
  - rewrite Hsyn. apply simulated_ohlcv_ordered.
  - destruct (get_ohlcv_data_returns self ticker s e w) as (r & w2 & _ & Hget & _).
    eauto.
  - intros Hnone. eexists. by apply get_ohlcv_data_fresh.
  - intros -> ->.
    change (ymd 2020 1 5 - ymd 2020 1 1 + 1) with 5 in Hlen. lia.
Qed.

(** C4: when a stored series exists and at least one of its rows is
    dated within [start, end], [get_ohlcv_data] returns the slice as it
    is: exactly the stored rows dated within [start, end], in their stored
    order, whether or not they span the whole range; the provider is not
    asked and nothing else changes. *)
Theorem cache_hit_returns_slice self ticker s e (w : World RNG Net) stored :
  files w !! csv_path self ticker = Some stored →
  (∃ b, b ∈ stored ∧ s ≤ Date b ≤ e) →
  ∃ r w',
    get self ticker s e w = (Return r, w')
    ∧ r = filter (λ b, s ≤ Date b ≤ e) stored
    ∧ (∀ b, b ∈ r ↔ b ∈ stored ∧ s ≤ Date b ≤ e)
    ∧ r `sublist_of` stored
    ∧ r ≠ []
    ∧ yf_calls w' = yf_calls w ∧ net w' = net w
    ∧ files w' = files w ∧ w' = w.
Proof.
  intros Hfile Hrow.
  apply filter_range_nonempty in Hrow.
  exists (filter_range stored s e), w.
  split; [by apply get_ohlcv_data_hit|].
  split; [apply filter_range_filter|].
  split; [intros b; apply filter_range_elem|].
  split; [rewrite filter_range_filter; apply sublist_filter|].
  done.
Qed.

(** C5: when a stored series exists but none of its rows is dated within
    [start, end], [get_ohlcv_data] downloads again: the new series is the
    provider's rows, or the synthetic series when the provider raises or
    has none. A non-empty new series overwrites the file, whole, and the
    call returns exactly its rows dated within [start, end]; an empty one
    leaves the file alone and the earlier, empty slice is returned. The
    call returns a series in both cases and raises nothing. *)
Theorem cache_miss_refetches self ticker s e (w : World RNG Net) stored :
  files w !! csv_path self ticker = Some stored →
  (∀ b, b ∈ stored → ¬ (s ≤ Date b ≤ e)) →
  ∃ df w1 r w',
    download self ticker s e (printed w (NotCovered ticker s e)) = (Return df, w1)
    ∧ (unusable (yf_download ticker s e (net w)).1 = true →
         df = (synthetic ticker s e (rng w)).1)
    ∧ (unusable (yf_download ticker s e (net w)).1 = false →
         (yf_download ticker s e (net w)).1 = Return df)
    ∧ get self ticker s e w = (Return r, w')
    ∧ yf_calls w' = yf_calls w ++ [(ticker, s, e)]
    ∧ (df ≠ [] →
         r = filter (λ b, s ≤ Date b ≤ e) df
         ∧ (∀ b, b ∈ r ↔ b ∈ df ∧ s ≤ Date b ≤ e)
         ∧ files w' = <[csv_path self ticker := df]> (files w))
    ∧ (df = [] →
         r = filter (λ b, s ≤ Date b ≤ e) stored ∧ r = [] ∧ files w' = files w).
Proof.
  intros Hfile Hnone.
  assert (Hrows : filter_range stored s e = []).
  { destruct (filter_range stored s e) as [|b l] eqn:Hf; [done|].
    assert (Hb : b ∈ filter_range stored s e) by (rewrite Hf; left).
    apply filter_range_elem in Hb as [Hb Hin]. by destruct (Hnone b Hb). }
  destruct (_download_ohlcv_returns self ticker s e
              (printed w (NotCovered ticker s e)))
    as (df & w1 & out & Hdl & Hfiles & Hcalls & _ & _ & Hsyn & Hreal & _).
  cbn [printed files yf_calls net rng] in Hfiles, Hcalls, Hsyn, Hreal.
  pose proof (get_ohlcv_data_miss _ _ _ _ _ _ _ _ Hfile Hrows Hdl) as Hget.
  assert (Hans : unusable (yf_download ticker s e (net w)).1 = false →
                 (yf_download ticker s e (net w)).1 = Return df).
  { intros Hu. destruct (Hreal Hu) as [-> _]. done. }
  destruct df as [|b df]; cbn [empty] in Hget.
  - exists [], w1, [], (printed w1 FailedAgain).
    split; [exact Hdl|]. split; [exact Hsyn|]. split; [exact Hans|].
    split; [exact Hget|]. split; [exact Hcalls|]. split; [done|].
    intros _. rewrite <- filter_range_filter, Hrows. done.
  - exists (b :: df), w1, (filter_range (b :: df) s e),
      (saved w1 (csv_path self ticker) (b :: df)).
    split; [exact Hdl|]. split; [exact Hsyn|]. split; [exact Hans|].
    split; [exact Hget|]. split; [exact Hcalls|]. split; [|done].
    intros _. split; [apply filter_range_filter|].
    split; [intros b'; apply filter_range_elem|].
    cbn [saved files]. by rewrite Hfiles.
Qed.

(** C10: for start ≤ end the download step returns a non-empty series,
    the provider's rows or at least one synthetic bar, so the branch of
    [get_ohlcv_data] for an empty second download, which prints
    [FailedAgain], is never taken. *)
Theorem download_never_empty self ticker s e (w : World RNG Net) :
  s ≤ e →
  (∃ df w1, download self ticker s e w = (Return df, w1) ∧ df ≠ [])
  ∧ (∃ r w' out,
       get self ticker s e w = (Return r, w')
       ∧ stdout w' = stdout w ++ out ∧ (FailedAgain ∉ out)).
Proof.
  intros Hse. split.
  - destruct (_download_ohlcv_returns self ticker s e w)
      as (df & w1 & out & Hdl & _ & _ & _ & _ & _ & _ & Hne).
    exists df, w1. auto.
  - destruct (get_ohlcv_data_returns self ticker s e w)
      as (r & w' & out & Hget & Hout & Hnot).
    exists r, w', out. auto.
Qed.

End HubFacts.

(** ** Runs on concrete worlds *)

Lemma lcg_uniform_range lo hi g :
  (lo <= hi)%Q → (lo <= (Demo.lcg_uniform lo hi g).1 <= hi)%Q.
Proof.
  intros Hle. unfold Demo.lcg_uniform. cbn [fst].
  set (f := (g mod 1024 # 1024)%Q).
  assert (Hf : (0 <= f <= 1)%Q).
  { pose proof (Z.mod_pos_bound g 1024 eq_refl) as Hm.
    unfold f, Qle; cbn [Qnum Qden]. lia. }
  nra.
Qed.

(** Five days of January 2020: five bars, no date twice. *)
Lemma generated_series_shape_witness :
  ymd 2020 1 1 ≤ ymd 2020 1 5
  ∧ ∃ df w',
      _generate_simulated_ohlcv Demo.lcg_uniform Demo.lcg_randint Demo.hub "XYZ"
        (ymd 2020 1 1) (ymd 2020 1 5) Demo.fresh = (Return df, w')
      ∧ Z.of_nat (length df) = 5
      ∧ NoDup (Date <$> df).
Proof.
  assert (Hse : ymd 2020 1 1 ≤ ymd 2020 1 5) by (vm_compute; discriminate).
  split; [exact Hse|].
  destruct (generated_series_shape Demo.lcg_uniform Demo.lcg_randint Demo.hub
              "XYZ" (ymd 2020 1 1) (ymd 2020 1 5) Demo.fresh Hse)
    as (df & w' & Hrun & Hlen & _ & _ & _ & Hnd).
  exists df, w'. repeat split; assumption.
Defined.

(** The congruential generator keeps its bounds, so its bars have
    positive prices. *)
Lemma generated_prices_positive_witness :
  (∀ lo hi g, (lo <= hi)%Q → (lo <= (Demo.lcg_uniform lo hi g).1 <= hi)%Q)
  ∧ ∃ df w',
      _generate_simulated_ohlcv Demo.lcg_uniform Demo.lcg_randint Demo.hub "XYZ"
        (ymd 2020 1 1) (ymd 2020 1 5) Demo.fresh = (Return df, w')
      ∧ ∀ b, b ∈ df →
          (0 < Open b)%Q ∧ (0 < High b)%Q ∧ (0 < Low b)%Q ∧ (0 < Close b)%Q.
Proof.
  split; [exact lcg_uniform_range|].
  exact (generated_prices_positive Demo.lcg_uniform Demo.lcg_randint
           lcg_uniform_range Demo.hub "XYZ" (ymd 2020 1 1) (ymd 2020 1 5)
           Demo.fresh).
Defined.

(** A provider that raises: five synthetic bars come back. *)
Lemma provider_failure_falls_back_witness :
  ymd 2020 1 1 ≤ ymd 2020 1 5
  ∧ unusable (Demo.failing "XYZ" (ymd 2020 1 1) (ymd 2020 1 5) (net Demo.fresh)).1 = true
  ∧ ∃ df w1,
      _download_ohlcv Demo.lcg_uniform Demo.lcg_randint Demo.failing Demo.hub "XYZ"
        (ymd 2020 1 1) (ymd 2020 1 5) Demo.fresh = (Return df, w1)
      ∧ length df = 5%nat ∧ Forall ohlc_ordered df.
Proof.
  assert (Hse : ymd 2020 1 1 ≤ ymd 2020 1 5) by (vm_compute; discriminate).
  split; [exact Hse|]. split; [reflexivity|].
  destruct (provider_failure_falls_back Demo.lcg_uniform Demo.lcg_randint
              Demo.failing Demo.hub "XYZ" (ymd 2020 1 1) (ymd 2020 1 5)
              Demo.fresh Hse eq_refl)
    as (df & w1 & Hrun & _ & _ & Hord & _ & _ & Hfive).
  exists df, w1. repeat split; auto.
Defined.

(** A file that holds two days of a ten-day request and one later day:
    the two days come back, the later day does not, and the provider is
    not asked. *)
Lemma cache_hit_returns_slice_witness :
  files Demo.cached_wider !! csv_path Demo.hub "XYZ" = Some Demo.three_days
  ∧ (∃ b, b ∈ Demo.three_days ∧ ymd 2020 1 1 ≤ Date b ≤ ymd 2020 1 10)
  ∧ ∃ r w',
      get_ohlcv_data Demo.lcg_uniform Demo.lcg_randint Demo.failing Demo.hub "XYZ"
        (ymd 2020 1 1) (ymd 2020 1 10) Demo.cached_wider = (Return r, w')
      ∧ r = [Demo.bar_at (ymd 2020 1 2); Demo.bar_at (ymd 2020 1 3)]
      ∧ yf_calls w' = [].
Proof.
  assert (Hfile : files Demo.cached_wider !! csv_path Demo.hub "XYZ"
                  = Some Demo.three_days) by reflexivity.
  assert (Hrow : ∃ b, b ∈ Demo.three_days ∧ ymd 2020 1 1 ≤ Date b ≤ ymd 2020 1 10).
  { exists (Demo.bar_at (ymd 2020 1 2)). split; [left|].
    split; vm_compute; discriminate. }
  split; [exact Hfile|]. split; [exact Hrow|].
  destruct (cache_hit_returns_slice Demo.lcg_uniform Demo.lcg_randint Demo.failing
              Demo.hub "XYZ" (ymd 2020 1 1) (ymd 2020 1 10) Demo.cached_wider
              Demo.three_days Hfile Hrow)
    as (r & w' & Hget & Hr & _ & _ & _ & Hcalls & _).
  exists r, w'. split; [exact Hget|]. split; [|exact Hcalls].
  rewrite Hr. reflexivity.
Defined.

(** A file from 2019, a request for 2020-01-01 to 2020-01-05 and a
    provider with one row inside and one outside that range: the file is
    overwritten with both rows and the row inside comes back. *)
Lemma cache_miss_refetches_witness :
  files Demo.stale !! csv_path Demo.hub "XYZ" = Some [Demo.bar_at (ymd 2019 6 1)]
  ∧ (∀ b, b ∈ [Demo.bar_at (ymd 2019 6 1)] →
          ¬ (ymd 2020 1 1 ≤ Date b ≤ ymd 2020 1 5))
  ∧ ∃ r w',
      get_ohlcv_data Demo.lcg_uniform Demo.lcg_randint Demo.two_rows Demo.hub "XYZ"
        (ymd 2020 1 1) (ymd 2020 1 5) Demo.stale = (Return r, w')
      ∧ r = [Demo.bar_at (ymd 2020 1 3)]
      ∧ files w' !! csv_path Demo.hub "XYZ"
        = Some [Demo.bar_at (ymd 2020 1 3); Demo.bar_at (ymd 2020 1 6)]
      ∧ yf_calls w' = [("XYZ", ymd 2020 1 1, ymd 2020 1 5)].
Proof.
  assert (Hfile : files Demo.stale !! csv_path Demo.hub "XYZ"
                  = Some [Demo.bar_at (ymd 2019 6 1)]) by reflexivity.
  assert (Hnone : ∀ b, b ∈ [Demo.bar_at (ymd 2019 6 1)] →
                       ¬ (ymd 2020 1 1 ≤ Date b ≤ ymd 2020 1 5)).
  { intros b Hb. apply list_elem_of_singleton in Hb as ->.
    intros [Hlo _]. vm_compute in Hlo. by apply Hlo. }
  split; [exact Hfile|]. split; [exact Hnone|].
  destruct (cache_miss_refetches Demo.lcg_uniform Demo.lcg_randint Demo.two_rows
              Demo.hub "XYZ" (ymd 2020 1 1) (ymd 2020 1 5) Demo.stale
              _ Hfile Hnone)
    as (df & w1 & r & w' & _ & _ & Hans & Hget & Hcalls & Hnew & _).
  specialize (Hans eq_refl). injection Hans as <-.
  destruct Hnew as (Hr & _ & Hsaved); [discriminate|].
  exists r, w'. split; [exact Hget|]. split; [rewrite Hr; reflexivity|].
  split; [rewrite Hsaved; apply lookup_insert_eq|exact Hcalls].
Defined.

(** A provider without rows: the download step still returns bars. *)
Lemma download_never_empty_witness :
  ymd 2020 1 1 ≤ ymd 2020 1 5
  ∧ ∃ df w1,
      _download_ohlcv Demo.lcg_uniform Demo.lcg_randint Demo.no_rows Demo.hub "XYZ"
        (ymd 2020 1 1) (ymd 2020 1 5) Demo.stale = (Return df, w1)
      ∧ df ≠ [].
Proof.
  assert (Hse : ymd 2020 1 1 ≤ ymd 2020 1 5) by (vm_compute; discriminate).
  split; [exact Hse|].
  exact (proj1 (download_never_empty Demo.lcg_uniform Demo.lcg_randint
                  Demo.no_rows Demo.hub "XYZ" (ymd 2020 1 1) (ymd 2020 1 5)
                  Demo.stale Hse)).
Defined.

(** The filter on a stored series that lies outside the requested range. *)
Example filter_range_outside :
  filter_range (Demo.bar_at <$> date_range (ymd 2020 1 1) (ymd 2020 1 10))
    (ymd 2021 1 1) (ymd 2021 1 5) = [].
Proof. reflexivity. Qed.

(** The first call of the run below: two provider rows, saved whole. *)
Lemma fresh_fetch_rows :
  ∃ w1,
    get_ohlcv_data Demo.lcg_uniform Demo.lcg_randint Demo.two_rows Demo.hub
      "XYZ" (ymd 2020 1 1) (ymd 2020 1 5) Demo.fresh
    = (Return [Demo.bar_at (ymd 2020 1 3); Demo.bar_at (ymd 2020 1 6)], w1)
    ∧ files w1 !! csv_path Demo.hub "XYZ"
      = Some [Demo.bar_at (ymd 2020 1 3); Demo.bar_at (ymd 2020 1 6)].
Proof.
  eexists. split.
  - apply get_ohlcv_data_fresh; [reflexivity|].
    rewrite _download_ohlcv_run. reflexivity.
  - cbn [saved files]. apply lookup_insert_eq.
Qed.

(** C6: with no stored file, [get_ohlcv_data] saves the downloaded series
    and returns it whole, not its slice for [start, end]: a provider row
    dated 2020-01-06 comes back from a request that ends on 2020-01-05. *)
Theorem fresh_fetch_returns_unfiltered :
  let s := ymd 2020 1 1 in
  let e := ymd 2020 1 5 in
  let rows := [Demo.bar_at (ymd 2020 1 3); Demo.bar_at (ymd 2020 1 6)] in
  files Demo.fresh !! csv_path Demo.hub "XYZ" = None
  ∧ ∃ w1,
      get_ohlcv_data Demo.lcg_uniform Demo.lcg_randint Demo.two_rows Demo.hub
        "XYZ" s e Demo.fresh = (Return rows, w1)
      ∧ files w1 !! csv_path Demo.hub "XYZ" = Some rows
      ∧ filter_range rows s e = [Demo.bar_at (ymd 2020 1 3)]
      ∧ rows ≠ filter_range rows s e.
Proof.
  cbv zeta. split; [reflexivity|].
  destruct fresh_fetch_rows as (w1 & Hfirst & Hsaved).
  exists w1. split; [exact Hfirst|]. split; [exact Hsaved|].
  split; [reflexivity|]. vm_compute. discriminate.
Qed.

(** C7: after a first call that found no file and saved provider rows
    reaching past the range, the second call with the same arguments does
    not ask the provider again, and returns fewer rows than the first. *)
Theorem second_call_returns_other_rows :
  let s := ymd 2020 1 1 in
  let e := ymd 2020 1 5 in
  let get := get_ohlcv_data Demo.lcg_uniform Demo.lcg_randint Demo.two_rows
               Demo.hub "XYZ" s e in
  ∃ saved_rows r1 w1 r2 w2,
    get Demo.fresh = (Return r1, w1)
    ∧ files w1 !! csv_path Demo.hub "XYZ" = Some saved_rows
    ∧ filter_range saved_rows s e ≠ []
    ∧ get w1 = (Return r2, w2)
    ∧ yf_calls w2 = yf_calls w1
    ∧ r1 = [Demo.bar_at (ymd 2020 1 3); Demo.bar_at (ymd 2020 1 6)]
    ∧ r2 = [Demo.bar_at (ymd 2020 1 3)]
    ∧ r1 ≠ r2.
Proof.
  cbv zeta.
  destruct fresh_fetch_rows as (w1 & Hfirst & Hsaved).
  exists [Demo.bar_at (ymd 2020 1 3); Demo.bar_at (ymd 2020 1 6)],
    [Demo.bar_at (ymd 2020 1 3); Demo.bar_at (ymd 2020 1 6)], w1,
    [Demo.bar_at (ymd 2020 1 3)], w1.
  split; [exact Hfirst|]. split; [exact Hsaved|].
  split; [vm_compute; discriminate|].
  split.
  - rewrite (get_ohlcv_data_hit _ _ _ _ _ _ _ _ _ Hsaved); [reflexivity|].
    vm_compute. discriminate.
  - repeat split. vm_compute. discriminate.
Qed.

(** ** More on the generator: volumes and reversed ranges *)

Section GeneratorBounds.

Context {RNG Net : Type}.
Variable uniform : Q → Q → RNG → Q * RNG.
Variable randint : Z → Z → RNG → Z * RNG.

(** The run of the method, for stating facts of its series. *)
Lemma generated_with (P : Series → Prop) self ticker s e (w : World RNG Net) :
  P (simulated_ohlcv uniform randint ticker s e (rng w)).1 →
  ∃ df w',
    _generate_simulated_ohlcv uniform randint self ticker s e w = (Return df, w')
    ∧ P df.
Proof.
  intros HP. eexists _, _. split; [apply _generate_simulated_ohlcv_run|exact HP].
Qed.

(** X6: for a range whose end lies before its start the generator returns
    the empty series: the columns are built against an empty index. *)
Theorem generated_reversed_range_empty self ticker s e (w : World RNG Net) :
  e < s →
  ∃ w', _generate_simulated_ohlcv uniform randint self ticker s e w = (Return [], w').
Proof.
  intros Hes.
  destruct (generated_with (λ df, df = []) self ticker s e w) as (df & w' & Hrun & ->);
    [|by exists w'].
  apply (fmap_nil_inv Date).
  rewrite simulated_ohlcv_dates. unfold date_range. apply seqZ_nil. lia.
Qed.

Section Volumes.

(** [np.random.randint(lo, hi)] lies in [lo, hi). *)
Hypothesis randint_range :
  ∀ lo hi g, lo < hi → lo ≤ (randint lo hi g).1 < hi.

Lemma randint_n_range lo hi n g :
  lo < hi → Forall (λ x, lo ≤ x < hi) (randint_n randint lo hi n g).1.
Proof.
  intros Hlt. revert g. induction n as [|n IH]; intros g; simpl; [constructor|].
  pose proof (randint_range lo hi g Hlt) as Hx.
  destruct (randint lo hi g) as [x g1].
  specialize (IH g1). destruct (randint_n randint lo hi n g1).
  by constructor.
Qed.

Lemma simulated_ohlcv_volume_range ticker s e g :
  Forall (λ b, 100000 ≤ Volume b < 10000000)
    (simulated_ohlcv uniform randint ticker s e g).1.
Proof.
  destruct (simulated_ohlcv_frame uniform randint ticker s e g)
    as (p0 & g1 & walk & g2 & on & g3 & cn & g4 & hn & g5 & ln & g6 & vol & g7
        & _ & _ & _ & _ & _ & _ & Hvol & ->).
  cbn [fst]. apply Forall_lookup. intros i b Hb.
  apply DataFrame_lookup in Hb as (_ & _ & _ & _ & _ & Hv).
  pose proof (randint_n_range 100000 10000000 (length (date_range s e)) g6 eq_refl)
    as Hall.
  rewrite Hvol in Hall. cbn [fst] in Hall.
  rewrite Forall_lookup in Hall. exact (Hall _ _ Hv).
Qed.

(** X1: every generated bar has a volume of at least 100000 and below
    10000000. *)
Theorem generated_volume_range self ticker s e (w : World RNG Net) :
  ∃ df w',
    _generate_simulated_ohlcv uniform randint self ticker s e w = (Return df, w')
    ∧ ∀ b, b ∈ df → 100000 ≤ Volume b < 10000000.
Proof.
  apply generated_with. apply Forall_forall. apply simulated_ohlcv_volume_range.
Qed.

End Volumes.

End GeneratorBounds.

(** ** More on paths *)

Lemma length_string_app (a b : string) :
  String.length (a ++ b) = (String.length a + String.length b)%nat.
Proof. induction a as [|x a IH]; simpl; [done|]. by rewrite IH. Qed.

Lemma string_app_inj_r (c a b : string) : (a ++ c = b ++ c)%string → a = b.
Proof.
  revert b. induction a as [|x a IH]; intros [|y b] Heq; simpl in Heq.
  - done.
  - apply (f_equal String.length) in Heq.
    rewrite ?length_string_app in Heq. simpl in Heq. lia.
  - apply (f_equal String.length) in Heq.
    rewrite ?length_string_app in Heq. simpl in Heq. lia.
  - injection Heq as -> Heq. f_equal. by apply IH.
Qed.

Lemma prefix_slash_app (t c : string) :
  String.prefix "/" t = false → String.prefix "/" c = false →
  String.prefix "/" (t ++ c) = false.
Proof.
  intros Ht Hc. destruct t as [|x t]; [exact Hc|].
  change (String.prefix "/" (String x (t ++ c)) = false).
  cbn -[Ascii.ascii_dec] in Ht |- *.
  match goal with
  | |- context [Ascii.ascii_dec ?a ?b] => destruct (Ascii.ascii_dec a b)
  end; [|done].
  by destruct t.
Qed.

Lemma plain_symbol_no_slash (t : string) :
  plain_symbol t = true → String.prefix "/" t = false.
Proof.
  destruct t as [|c t]; [done|].
  unfold plain_symbol. rewrite !andb_true_iff. intros [_ Hall].
  cbn [list_ascii_of_string forallb] in Hall.
  apply andb_true_iff in Hall as [Hc _].
  cbn -[Ascii.ascii_dec].
  match goal with
  | |- context [Ascii.ascii_dec ?a ?b] => destruct (Ascii.ascii_dec a b) as [<-|]
  end; [|done].
  by vm_compute in Hc.
Qed.

(** Symbols that do not start with a slash have files of their own. *)
Lemma csv_path_inj self t1 t2 :
  String.prefix "/" t1 = false → String.prefix "/" t2 = false →
  csv_path self t1 = csv_path self t2 → t1 = t2.
Proof.
  intros H1 H2. unfold csv_path, path_join.
  rewrite (prefix_slash_app t1 ".csv" H1 eq_refl).
  rewrite (prefix_slash_app t2 ".csv" H2 eq_refl).
  destruct (String.length (data_path self) =? 0)%nat.
  { apply string_app_inj_r. }
  destruct (String.eqb _ "/"); intros Heq.
  - apply (inj (String.append (data_path self))) in Heq.
    by apply string_app_inj_r in Heq.
  - apply (inj (String.append (data_path self))) in Heq.
    apply (inj (String.append "/")) in Heq.
    by apply string_app_inj_r in Heq.
Qed.

(** ** More on the hub: which branch runs, and what each call leaves *)

Section HubMore.

Context {RNG Net : Type}.
Variable uniform : Q → Q → RNG → Q * RNG.
Variable randint : Z → Z → RNG → Z * RNG.
Variable yf_download : string → Z → Z → Net → Outcome Series * Net.

Local Abbreviation download := (_download_ohlcv uniform randint yf_download).
Local Abbreviation get := (get_ohlcv_data uniform randint yf_download).
Local Abbreviation synthetic := (simulated_ohlcv uniform randint).

(** The three runs of [get_ohlcv_data]. *)
Lemma get_ohlcv_data_cases self ticker s e (w : World RNG Net) :
  (files w !! csv_path self ticker = None
   ∧ ∃ df w1, download self ticker s e w = (Return df, w1)
       ∧ get self ticker s e w = (Return df, saved w1 (csv_path self ticker) df))
  ∨ (∃ stored, files w !! csv_path self ticker = Some stored
       ∧ filter_range stored s e ≠ []
       ∧ get self ticker s e w = (Return (filter_range stored s e), w))
  ∨ (∃ stored df w1, files w !! csv_path self ticker = Some stored
       ∧ filter_range stored s e = []
       ∧ download self ticker s e (printed w (NotCovered ticker s e)) = (Return df, w1)
       ∧ get self ticker s e w =
           if empty df then (Return [], printed w1 FailedAgain)
           else (Return (filter_range df s e), saved w1 (csv_path self ticker) df)).
Proof.
  destruct (files w !! csv_path self ticker) as [stored|] eqn:Hfile.
  - right. destruct (filter_range stored s e) as [|b rows] eqn:Hrows.
    + right.
      destruct (_download_ohlcv_returns uniform randint yf_download self ticker s e
                  (printed w (NotCovered ticker s e)))
        as (df & w1 & out & Hdl & _).
      exists stored, df, w1. repeat split; try done.
      by apply get_ohlcv_data_miss with stored.
    + left. exists stored. split; [done|]. split; [by rewrite Hrows|].
      apply get_ohlcv_data_hit; [done|by rewrite Hrows].
  - left. split; [done|].
    destruct (_download_ohlcv_returns uniform randint yf_download self ticker s e w)
      as (df & w1 & out & Hdl & _).
    exists df, w1. split; [done|]. by apply get_ohlcv_data_fresh.
Qed.

(** What one download leaves and returns, by the provider's answer. *)
Lemma _download_ohlcv_answer self ticker s e (w : World RNG Net) df w1 :
  download self ticker s e w = (Return df, w1) →
  files w1 = files w
  ∧ yf_calls w1 = yf_calls w ++ [(ticker, s, e)]
  ∧ (∃ out, stdout w1 = stdout w ++ out ∧ FailedAgain ∉ out)
  ∧ (unusable (yf_download ticker s e (net w)).1 = true →
       df = (synthetic ticker s e (rng w)).1)
  ∧ (unusable (yf_download ticker s e (net w)).1 = false →
       (yf_download ticker s e (net w)).1 = Return df ∧ df ≠ [] ∧ rng w1 = rng w).
Proof.
  intros Hdl.
  destruct (_download_ohlcv_returns uniform randint yf_download self ticker s e w)
    as (df' & w1' & out & Hdl' & Hf & Hc & Hout & Hnot & Hsyn & Hreal & _).
  rewrite Hdl in Hdl'. injection Hdl' as <- <-.
  repeat split; try done.
  - by exists out.
  - destruct (Hreal H) as [-> _]. done.
  - destruct (Hreal H) as [Heq _]. rewrite Heq in H. cbn in H.
    intros ->. done.
  - by destruct (Hreal H).
Qed.

(** X7: [get_ohlcv_data] prints its "download failed again" notice exactly
    when a file is stored, the range ends before it starts and the
    provider raises or has no rows. *)
Theorem failed_again_exactly self ticker s e (w : World RNG Net) :
  ∃ r w' out,
    get self ticker s e w = (Return r, w')
    ∧ stdout w' = stdout w ++ out
    ∧ (FailedAgain ∈ out ↔
         is_Some (files w !! csv_path self ticker) ∧ e < s
         ∧ unusable (yf_download ticker s e (net w)).1 = true).
Proof.
  destruct (get_ohlcv_data_cases self ticker s e w)
    as [(Hnone & df & w1 & Hdl & Hget)
       |[(stored & Hfile & Hrows & Hget)
        |(stored & df & w1 & Hfile & Hrows & Hdl & Hget)]].
  - destruct (_download_ohlcv_answer _ _ _ _ _ _ _ Hdl) as (_ & _ & (out & Hout & Hnot) & _).
    exists df, (saved w1 (csv_path self ticker) df), out.
    split; [done|]. split; [done|]. split.
    + intros Hin. done.
    + intros (Hsome & _). rewrite Hnone in Hsome. by destruct Hsome.
  - exists (filter_range stored s e), w, []. rewrite app_nil_r.
    split; [done|]. split; [done|]. split.
    + intros Hin. by apply elem_of_nil in Hin.
    + intros (_ & Hes & _). by rewrite filter_range_reversed in Hrows.
  - destruct (_download_ohlcv_answer _ _ _ _ _ _ _ Hdl)
      as (_ & _ & (out & Hout & Hnot) & Hsyn & Hreal).
    cbn [printed stdout net rng] in Hout, Hsyn, Hreal.
    destruct df as [|b df]; cbn [empty] in Hget.
    + exists [], (printed w1 FailedAgain), (NotCovered ticker s e :: out ++ [FailedAgain]).
      split; [done|]. split.
      { cbn [printed stdout]. rewrite Hout. by rewrite <- !app_assoc. }
      split.
      * intros _. split; [by rewrite Hfile|].
        destruct (unusable (yf_download ticker s e (net w)).1) eqn:Hu.
        -- split; [|done].
           destruct (Z.lt_ge_cases e s) as [|Hse]; [done|].
           specialize (Hsyn eq_refl).
           by destruct (synthetic_nonempty uniform randint ticker s e (rng w)).
        -- by destruct (Hreal eq_refl) as (_ & ? & _).
      * intros _. rewrite elem_of_cons, elem_of_app, list_elem_of_singleton. auto.
    + exists (filter_range (b :: df) s e), (saved w1 (csv_path self ticker) (b :: df)),
        (NotCovered ticker s e :: out).
      split; [done|]. split.
      { cbn [saved stdout]. rewrite Hout. by rewrite <- !app_assoc. }
      split.
      * intros Hin. apply elem_of_cons in Hin as [|Hin]; done.
      * intros (_ & Hes & Hu). specialize (Hsyn Hu).
        assert (Hnil : (synthetic ticker s e (rng w)).1 = []).
        { apply (fmap_nil_inv Date). rewrite simulated_ohlcv_dates.
          unfold date_range. apply seqZ_nil. lia. }
        by rewrite Hnil in Hsyn.
Qed.

(** X8: when a file is stored for the symbol, every row that
    [get_ohlcv_data] returns is dated within [start, end], whatever the
    file and the provider hold. *)
Theorem stored_symbol_rows_within_range self ticker s e (w : World RNG Net) :
  is_Some (files w !! csv_path self ticker) →
  ∃ r w',
    get self ticker s e w = (Return r, w')
    ∧ ∀ b, b ∈ r → s ≤ Date b ≤ e.
Proof.
  intros [stored0 Hsome].
  destruct (get_ohlcv_data_cases self ticker s e w)
    as [(Hnone & _)
       |[(stored & Hfile & Hrows & Hget)
        |(stored & df & w1 & Hfile & Hrows & Hdl & Hget)]].
  - congruence.
  - eexists _, _. split; [exact Hget|]. intros b Hb.
    by apply filter_range_elem in Hb as [_ ?].
  - destruct df as [|b0 df]; cbn [empty] in Hget;
      eexists _, _; (split; [exact Hget|]); intros b Hb.
    + by apply elem_of_nil in Hb.
    + by apply filter_range_elem in Hb as [_ ?].
Qed.

(** X9: for a plain symbol the call returns, a file is stored for the
    symbol afterwards, and every returned row is a row of that file. *)
Theorem own_file_stored_after_call self ticker s e (w : World RNG Net) :
  plain_symbol ticker = true →
  ∃ r w' kept,
    get self ticker s e w = (Return r, w')
    ∧ files w' !! csv_path self ticker = Some kept
    ∧ ∀ b, b ∈ r → b ∈ kept.
Proof.
  intros _.
  destruct (get_ohlcv_data_cases self ticker s e w)
    as [(Hnone & df & w1 & Hdl & Hget)
       |[(stored & Hfile & Hrows & Hget)
        |(stored & df & w1 & Hfile & Hrows & Hdl & Hget)]].
  - eexists _, _, df. split; [exact Hget|]. cbn [saved files].
    split; [apply lookup_insert_eq|done].
  - eexists _, _, stored. split; [exact Hget|]. split; [exact Hfile|].
    intros b Hb. by apply filter_range_elem in Hb as [? _].
  - destruct (_download_ohlcv_answer _ _ _ _ _ _ _ Hdl) as (Hf & _).
    cbn [printed files] in Hf.
    destruct df as [|b0 df]; cbn [empty] in Hget.
    + eexists _, _, stored. split; [exact Hget|]. cbn [printed files].
      rewrite Hf. split; [exact Hfile|]. intros b Hb. by apply elem_of_nil in Hb.
    + eexists _, _, (b0 :: df). split; [exact Hget|]. cbn [saved files].
      split; [apply lookup_insert_eq|].
      intros b Hb. by apply filter_range_elem in Hb as [? _].
Qed.

(** A call changes the file of its symbol and no other path. *)
Lemma get_ohlcv_data_other_paths self ticker s e (w : World RNG Net) :
  ∃ r w',
    get self ticker s e w = (Return r, w')
    ∧ ∀ p, p ≠ csv_path self ticker → files w' !! p = files w !! p.
Proof.
  destruct (get_ohlcv_data_cases self ticker s e w)
    as [(Hnone & df & w1 & Hdl & Hget)
       |[(stored & Hfile & Hrows & Hget)
        |(stored & df & w1 & Hfile & Hrows & Hdl & Hget)]].
  - destruct (_download_ohlcv_answer _ _ _ _ _ _ _ Hdl) as (Hf & _).
    eexists _, _. split; [exact Hget|]. cbn [saved files]. rewrite Hf.
    intros p Hp. by rewrite lookup_insert_ne.
  - eexists _, _. split; [exact Hget|]. done.
  - destruct (_download_ohlcv_answer _ _ _ _ _ _ _ Hdl) as (Hf & _).
    cbn [printed files] in Hf.
    destruct df as [|b0 df]; cbn [empty] in Hget;
      eexists _, _; (split; [exact Hget|]).
    + cbn [printed files]. by rewrite Hf.
    + cbn [saved files]. rewrite Hf. intros p Hp. by rewrite lookup_insert_ne.
Qed.

(** X10: a call asks the provider at most once, with the caller's own
    arguments: not at all when the stored file has rows in the range (the
    generator and provider states are then untouched as well), and
    exactly once otherwise. *)
Theorem provider_asked_at_most_once self ticker s e (w : World RNG Net) :
  ∃ r w',
    get self ticker s e w = (Return r, w')
    ∧ (((∃ stored, files w !! csv_path self ticker = Some stored
                   ∧ filter_range stored s e ≠ [])
        ∧ yf_calls w' = yf_calls w ∧ rng w' = rng w ∧ net w' = net w)
       ∨ ((¬ ∃ stored, files w !! csv_path self ticker = Some stored
                       ∧ filter_range stored s e ≠ [])
          ∧ yf_calls w' = yf_calls w ++ [(ticker, s, e)])).
Proof.
  destruct (get_ohlcv_data_cases self ticker s e w)
    as [(Hnone & df & w1 & Hdl & Hget)
       |[(stored & Hfile & Hrows & Hget)
        |(stored & df & w1 & Hfile & Hrows & Hdl & Hget)]].
  - destruct (_download_ohlcv_answer _ _ _ _ _ _ _ Hdl) as (_ & Hc & _).
    eexists _, _. split; [exact Hget|]. right. split; [|exact Hc].
    intros (stored & Hfile & _). congruence.
  - eexists _, _. split; [exact Hget|]. left. split; [|done]. by exists stored.
  - destruct (_download_ohlcv_answer _ _ _ _ _ _ _ Hdl) as (_ & Hc & _).
    cbn [printed yf_calls] in Hc.
    assert (Hno : ¬ ∃ stored, files w !! csv_path self ticker = Some stored
                              ∧ filter_range stored s e ≠ []).
    { intros (stored' & Hfile' & Hne). congruence. }
    destruct df as [|b0 df]; cbn [empty] in Hget;
      eexists _, _; (split; [exact Hget|]); right; (split; [exact Hno|exact Hc]).
Qed.

(** X11: when the provider answers with rows, nothing is drawn from
    [np.random] and every row returned is a row of the stored file or of
    the provider's answer. *)
Theorem no_synthetic_rows_when_provider_answers self ticker s e (w : World RNG Net) :
  unusable (yf_download ticker s e (net w)).1 = false →
  ∃ r w',
    get self ticker s e w = (Return r, w')
    ∧ rng w' = rng w
    ∧ ∀ b, b ∈ r →
        (∃ stored, files w !! csv_path self ticker = Some stored ∧ b ∈ stored)
        ∨ (∃ df, (yf_download ticker s e (net w)).1 = Return df ∧ b ∈ df).
Proof.
  intros Hu.
  destruct (get_ohlcv_data_cases self ticker s e w)
    as [(Hnone & df & w1 & Hdl & Hget)
       |[(stored & Hfile & Hrows & Hget)
        |(stored & df & w1 & Hfile & Hrows & Hdl & Hget)]].
  - destruct (_download_ohlcv_answer _ _ _ _ _ _ _ Hdl) as (_ & _ & _ & _ & Hreal).
    destruct (Hreal Hu) as (Hrows & _ & Hrng).
    eexists _, _. split; [exact Hget|]. split; [exact Hrng|].
    intros b Hb. right. by exists df.
  - eexists _, _. split; [exact Hget|]. split; [done|].
    intros b Hb. left. exists stored. split; [done|].
    by apply filter_range_elem in Hb as [? _].
  - destruct (_download_ohlcv_answer _ _ _ _ _ _ _ Hdl) as (_ & _ & _ & _ & Hreal).
    cbn [printed net rng] in Hreal.
    destruct (Hreal Hu) as (Hans & Hne & Hrng).
    destruct df as [|b0 df]; [done|]. cbn [empty] in Hget.
    eexists _, _. split; [exact Hget|]. split; [exact Hrng|].
    intros b Hb. right. exists (b0 :: df). split; [done|].
    by apply filter_range_elem in Hb as [? _].
Qed.

(** X14: for a plain symbol, with the provider down and start ≤ end,
    [get_ohlcv_data] still returns at least one row, and every row is
    dated within [start, end]. *)
Theorem provider_down_still_rows self ticker s e (w : World RNG Net) :
  plain_symbol ticker = true →
  s ≤ e →
  unusable (yf_download ticker s e (net w)).1 = true →
  ∃ r w',
    get self ticker s e w = (Return r, w')
    ∧ r ≠ []
    ∧ ∀ b, b ∈ r → s ≤ Date b ≤ e.
Proof.
  intros _ Hse Hu.
  pose proof (synthetic_nonempty uniform randint ticker s e (rng w) Hse) as Hne.
  pose proof (synthetic_in_range uniform randint ticker s e (rng w)) as Hin.
  rewrite Forall_forall in Hin.
  destruct (get_ohlcv_data_cases self ticker s e w)
    as [(Hnone & df & w1 & Hdl & Hget)
       |[(stored & Hfile & Hrows & Hget)
        |(stored & df & w1 & Hfile & Hrows & Hdl & Hget)]].
  - destruct (_download_ohlcv_answer _ _ _ _ _ _ _ Hdl) as (_ & _ & _ & Hsyn & _).
    rewrite (Hsyn Hu) in *.
    eexists _, _. split; [exact Hget|]. split; [exact Hne|exact Hin].
  - eexists _, _. split; [exact Hget|]. split; [exact Hrows|].
    intros b Hb. by apply filter_range_elem in Hb as [_ ?].
  - destruct (_download_ohlcv_answer _ _ _ _ _ _ _ Hdl) as (_ & _ & _ & Hsyn & _).
    cbn [printed net rng] in Hsyn. rewrite (Hsyn Hu) in *.
    destruct (synthetic ticker s e (rng w)).1 as [|b0 df0] eqn:Hdf; [done|].
    cbn [empty] in Hget.
    eexists _, _. split; [exact Hget|].
    rewrite filter_range_all by (by apply Forall_forall).
    split; [done|exact Hin].
Qed.

(** X13: after a first request on a plain symbol without a file, answered
    by the generator, a second request whose range overlaps the first is
    served from the file without asking the provider, and returns exactly
    the days both ranges share. *)
Theorem overlapping_request_served_from_file
    self ticker s e s' e' (w : World RNG Net) :
  plain_symbol ticker = true →
  s ≤ e →
  files w !! csv_path self ticker = None →
  unusable (yf_download ticker s e (net w)).1 = true →
  s `max` s' ≤ e `min` e' →
  ∃ df w1 r,
    get self ticker s e w = (Return df, w1)
    ∧ get self ticker s' e' w1 = (Return r, w1)
    ∧ Date <$> r = date_range (s `max` s') (e `min` e').
Proof.
  intros _ Hse Hnone Hu Hov.
  destruct (_download_ohlcv_returns uniform randint yf_download self ticker s e w)
    as (df & w1 & out & Hdl & _ & _ & _ & _ & Hsyn & _).
  specialize (Hsyn Hu).
  assert (Hdates : Date <$> filter_range df s' e'
                   = date_range (s `max` s') (e `min` e')).
  { rewrite filter_range_dates, Hsyn, simulated_ohlcv_dates.
    unfold date_range. rewrite filter_seqZ.
    replace (s + (e - s + 1) - 1) with e by lia. done. }
  exists df, (saved w1 (csv_path self ticker) df), (filter_range df s' e').
  split; [by apply get_ohlcv_data_fresh|].
  split; [|exact Hdates].
  apply get_ohlcv_data_hit.
  - cbn [saved files]. apply lookup_insert_eq.
  - intros Hnil. rewrite Hnil in Hdates.
    apply (f_equal length) in Hdates.
    rewrite length_date_range in Hdates. simpl in Hdates. lia.
Qed.

(** Any property of series that the generator establishes and the range
    filter keeps is kept by the hub, for the rows it returns and for the
    files it leaves, as long as the provider's rows have it. *)
Lemma get_ohlcv_data_keeps (P : Series → Prop) self ticker s e (w : World RNG Net) :
  P [] →
  (∀ df a b, P df → P (filter_range df a b)) →
  (∀ t a b g, P (synthetic t a b g).1) →
  map_Forall (λ _ df, P df) (files w) →
  (∀ df, (yf_download ticker s e (net w)).1 = Return df → P df) →
  ∃ r w',
    get self ticker s e w = (Return r, w')
    ∧ P r ∧ map_Forall (λ _ df, P df) (files w').
Proof.
  intros Hnil Hfilter Hgen Hfiles Hprov.
  assert (Hdl : ∀ w0 df w1, net w0 = net w →
            download self ticker s e w0 = (Return df, w1) → P df).
  { intros w0 df w1 Hnet Hrun.
    destruct (_download_ohlcv_answer _ _ _ _ _ _ _ Hrun) as (_ & _ & _ & Hsyn & Hreal).
    rewrite Hnet in Hsyn, Hreal.
    destruct (unusable (yf_download ticker s e (net w)).1).
    - rewrite (Hsyn eq_refl). apply Hgen.
    - destruct (Hreal eq_refl) as (Hans & _). by apply Hprov. }
  destruct (get_ohlcv_data_cases self ticker s e w)
    as [(Hnone & df & w1 & Hrun & Hget)
       |[(stored & Hfile & Hrows & Hget)
        |(stored & df & w1 & Hfile & Hrows & Hrun & Hget)]].
  - destruct (_download_ohlcv_answer _ _ _ _ _ _ _ Hrun) as (Hf & _).
    assert (HP : P df) by (eapply Hdl; [|exact Hrun]; done).
    eexists _, _. split; [exact Hget|]. split; [exact HP|].
    cbn [saved files]. rewrite Hf. by apply map_Forall_insert_2.
  - eexists _, _. split; [exact Hget|]. split; [|done].
    apply Hfilter. by apply (map_Forall_lookup_1 _ _ _ _ Hfiles Hfile).
  - destruct (_download_ohlcv_answer _ _ _ _ _ _ _ Hrun) as (Hf & _).
    cbn [printed files] in Hf.
    assert (HP : P df) by (eapply Hdl; [|exact Hrun]; done).
    destruct df as [|b0 df]; cbn [empty] in Hget;
      eexists _, _; (split; [exact Hget|]).
    + split; [done|]. cbn [printed files]. by rewrite Hf.
    + split; [by apply Hfilter|].
      cbn [saved files]. rewrite Hf. by apply map_Forall_insert_2.
Qed.

(** X15: if every stored series has the OHLC ordering and the provider's
    rows have it, then so have the rows [get_ohlcv_data] returns and every
    series stored afterwards. *)
Theorem ohlc_ordering_kept self ticker s e (w : World RNG Net) :
  map_Forall (λ _ df, Forall ohlc_ordered df) (files w) →
  (∀ df, (yf_download ticker s e (net w)).1 = Return df → Forall ohlc_ordered df) →
  ∃ r w',
    get self ticker s e w = (Return r, w')
    ∧ Forall ohlc_ordered r
    ∧ map_Forall (λ _ df, Forall ohlc_ordered df) (files w').
Proof.
  apply (get_ohlcv_data_keeps (Forall ohlc_ordered)).
  - constructor.
  - intros df a b. apply filter_range_Forall.
  - intros t a b g. apply simulated_ohlcv_ordered.
Qed.

(** X16: if every stored series is in strictly increasing order of date
    and the provider's rows are, then so are the rows [get_ohlcv_data]
    returns and every series stored afterwards. *)
Theorem date_order_kept self ticker s e (w : World RNG Net) :
  map_Forall (λ _ df, increasing df) (files w) →
  (∀ df, (yf_download ticker s e (net w)).1 = Return df → increasing df) →
  ∃ r w',
    get self ticker s e w = (Return r, w')
    ∧ increasing r
    ∧ map_Forall (λ _ df, increasing df) (files w').
Proof.
  apply (get_ohlcv_data_keeps increasing).
  - constructor.
  - intros df a b. apply increasing_filter_range.
  - intros t a b g. eapply increasing_consecutive. apply simulated_ohlcv_dates.
Qed.

(** X17: two different plain symbols have different files, and a
    request for one leaves the file of the other as it is. *)
Theorem symbols_keep_separate_files self t1 t2 s e (w : World RNG Net) :
  plain_symbol t1 = true → plain_symbol t2 = true → t1 ≠ t2 →
  csv_path self t1 ≠ csv_path self t2
  ∧ ∃ r w',
      get self t1 s e w = (Return r, w')
      ∧ files w' !! csv_path self t2 = files w !! csv_path self t2.
Proof.
  intros H1 H2 Hne.
  apply plain_symbol_no_slash in H1, H2.
  assert (Hpath : csv_path self t1 ≠ csv_path self t2).
  { intros Heq. by apply Hne, (csv_path_inj self). }
  split; [exact Hpath|].
  destruct (get_ohlcv_data_other_paths self t1 s e w) as (r & w' & Hget & Hframe).
  exists r, w'. split; [exact Hget|]. apply Hframe. congruence.
Qed.

(** X19: a request whose range ends before it starts, made while a file
    is stored, returns no rows; if the provider answers with rows they
    replace the stored series all the same, and if it raises or has no
    rows the files stay as they are. *)
Theorem reversed_range_overwrites_file self ticker s e (w : World RNG Net) stored :
  e < s →
  files w !! csv_path self ticker = Some stored →
  ∃ w',
    get self ticker s e w = (Return [], w')
    ∧ (∀ df, (yf_download ticker s e (net w)).1 = Return df → df ≠ [] →
         files w' !! csv_path self ticker = Some df)
    ∧ (unusable (yf_download ticker s e (net w)).1 = true → files w' = files w).
Proof.
  intros Hes Hfile.
  destruct (get_ohlcv_data_cases self ticker s e w)
    as [(Hnone & _)
       |[(stored' & _ & Hrows & _)
        |(stored' & df & w1 & _ & _ & Hdl & Hget)]].
  - congruence.
  - by rewrite filter_range_reversed in Hrows.
  - destruct (_download_ohlcv_answer _ _ _ _ _ _ _ Hdl) as (Hf & _ & _ & Hsyn & Hreal).
    cbn [printed files net rng] in Hf, Hsyn, Hreal.
    rewrite (filter_range_reversed df s e Hes) in Hget.
    destruct (unusable (yf_download ticker s e (net w)).1) eqn:Hu.
    + assert (Hnil : df = []).
      { rewrite (Hsyn eq_refl). apply (fmap_nil_inv Date).
        rewrite simulated_ohlcv_dates. unfold date_range. apply seqZ_nil. lia. }
      subst df. cbn [empty] in Hget.
      eexists. split; [exact Hget|]. split.
      * intros df Hans Hne. rewrite Hans in Hu. cbn in Hu.
        by apply empty_true in Hu.
      * intros _. cbn [printed files]. exact Hf.
    + destruct (Hreal eq_refl) as (Hans & Hne & _).
      destruct df as [|b0 df]; [done|]. cbn [empty] in Hget.
      eexists. split; [exact Hget|]. split; [|done].
      intros df' Hans' _. cbn [saved files]. rewrite lookup_insert_eq.
      congruence.
Qed.

Section Script.

Hypothesis randint_range :
  ∀ lo hi g, lo < hi → lo ≤ (randint lo hi g).1 < hi.

(** X18: run where no QQQ file is stored and the provider is down, the
    script's table is the whole synthetic series: five rows dated
    2020-01-01 to 2020-01-05, each with the OHLC ordering and a volume in
    [100000, 10000000), and the same rows are stored as QQQ.csv under the
    default path. *)
Theorem main_shows_five_synthetic_rows (w : World RNG Net) :
  files w !! "project100x/data/raw/QQQ.csv" = None →
  unusable (yf_download "QQQ" (ymd 2020 1 1) (ymd 2020 1 5) (net w)).1 = true →
  ∃ table w',
    main uniform randint yf_download w = (Return table, w')
    ∧ Date <$> table = [ymd 2020 1 1; ymd 2020 1 2; ymd 2020 1 3;
                        ymd 2020 1 4; ymd 2020 1 5]
    ∧ Forall ohlc_ordered table
    ∧ Forall (λ b, 100000 ≤ Volume b < 10000000) table
    ∧ files w' !! "project100x/data/raw/QQQ.csv" = Some table.
Proof.
  intros Hnone Hu.
  destruct (_download_ohlcv_returns uniform randint yf_download DataHub_default
              "QQQ" (ymd 2020 1 1) (ymd 2020 1 5) w)
    as (df & w1 & out & Hdl & _ & _ & _ & _ & Hsyn & _).
  specialize (Hsyn Hu).
  pose proof (get_ohlcv_data_fresh uniform randint yf_download DataHub_default "QQQ"
                (ymd 2020 1 1) (ymd 2020 1 5) w w1 df Hnone Hdl) as Hget.
  assert (Hdates : Date <$> df = [ymd 2020 1 1; ymd 2020 1 2; ymd 2020 1 3;
                                  ymd 2020 1 4; ymd 2020 1 5]).
  { rewrite Hsyn, simulated_ohlcv_dates. reflexivity. }
  assert (Hhead : head df = df).
  { unfold head. apply take_ge.
    rewrite <- (length_fmap Date), Hdates. simpl. lia. }
  exists df, (saved w1 (csv_path DataHub_default "QQQ") df).
  split.
  { unfold main, mbind, M_bind, mret, M_ret. rewrite Hget. by rewrite Hhead. }
  split; [exact Hdates|].
  split; [rewrite Hsyn; apply simulated_ohlcv_ordered|].
  split; [rewrite Hsyn; by apply simulated_ohlcv_volume_range|].
  cbn [saved files]. apply (lookup_insert_eq (files w1)).
Qed.

End Script.

End HubMore.

(** ** More runs on concrete worlds *)

Lemma lcg_randint_range lo hi g :
  lo < hi → lo ≤ (Demo.lcg_randint lo hi g).1 < hi.
Proof.
  intros Hlt. unfold Demo.lcg_randint. cbn [fst].
  pose proof (Z.mod_pos_bound g (hi - lo)). lia.
Qed.

Lemma two_days_ordered : Forall ohlc_ordered Demo.two_days.
Proof. repeat constructor; vm_compute; discriminate. Qed.

Lemma two_rows_ordered :
  Forall ohlc_ordered [Demo.bar_at (ymd 2020 1 3); Demo.bar_at (ymd 2020 1 6)].
Proof. repeat constructor; vm_compute; discriminate. Qed.

Lemma two_days_increasing : increasing Demo.two_days.
Proof. repeat constructor. Qed.

Lemma two_rows_increasing :
  increasing [Demo.bar_at (ymd 2020 1 3); Demo.bar_at (ymd 2020 1 6)].
Proof. repeat constructor. Qed.

(** The congruential generator keeps its integer bounds, so its bars have
    volumes in range. *)
Lemma generated_volume_range_witness :
  (∀ lo hi g, lo < hi → lo ≤ (Demo.lcg_randint lo hi g).1 < hi)
  ∧ ∃ df w',
      _generate_simulated_ohlcv Demo.lcg_uniform Demo.lcg_randint Demo.hub "XYZ"
        (ymd 2020 1 1) (ymd 2020 1 5) Demo.fresh = (Return df, w')
      ∧ ∀ b, b ∈ df → 100000 ≤ Volume b < 10000000.
Proof.
  split; [exact lcg_randint_range|].
  exact (generated_volume_range Demo.lcg_uniform Demo.lcg_randint lcg_randint_range
           Demo.hub "XYZ" (ymd 2020 1 1) (ymd 2020 1 5) Demo.fresh).
Defined.

(** A range from 2020-01-05 back to 2020-01-01: no rows. *)
Lemma generated_reversed_range_empty_witness :
  ymd 2020 1 1 < ymd 2020 1 5
  ∧ ∃ w',
      _generate_simulated_ohlcv Demo.lcg_uniform Demo.lcg_randint Demo.hub "XYZ"
        (ymd 2020 1 5) (ymd 2020 1 1) Demo.fresh = (Return [], w').
Proof.
  assert (Hes : ymd 2020 1 1 < ymd 2020 1 5) by reflexivity.
  split; [exact Hes|].
  exact (generated_reversed_range_empty Demo.lcg_uniform Demo.lcg_randint Demo.hub
           "XYZ" (ymd 2020 1 5) (ymd 2020 1 1) Demo.fresh Hes).
Defined.

(** A stored file and a provider with rows outside the range: only rows
    of the range come back. *)
Lemma stored_symbol_rows_within_range_witness :
  is_Some (files Demo.partly_cached !! csv_path Demo.hub "XYZ")
  ∧ ∃ r w',
      get_ohlcv_data Demo.lcg_uniform Demo.lcg_randint Demo.two_rows Demo.hub "XYZ"
        (ymd 2020 1 1) (ymd 2020 1 5) Demo.partly_cached = (Return r, w')
      ∧ ∀ b, b ∈ r → ymd 2020 1 1 ≤ Date b ≤ ymd 2020 1 5.
Proof.
  assert (Hsome : is_Some (files Demo.partly_cached !! csv_path Demo.hub "XYZ"))
    by (by eexists).
  split; [exact Hsome|].
  exact (stored_symbol_rows_within_range Demo.lcg_uniform Demo.lcg_randint
           Demo.two_rows Demo.hub "XYZ" (ymd 2020 1 1) (ymd 2020 1 5)
           Demo.partly_cached Hsome).
Defined.

(** A provider with rows and no file: its rows come back and the
    generator state is as before. *)
Lemma no_synthetic_rows_when_provider_answers_witness :
  unusable (Demo.two_rows "XYZ" (ymd 2020 1 1) (ymd 2020 1 5) (net Demo.fresh)).1 = false
  ∧ ∃ r w',
      get_ohlcv_data Demo.lcg_uniform Demo.lcg_randint Demo.two_rows Demo.hub "XYZ"
        (ymd 2020 1 1) (ymd 2020 1 5) Demo.fresh = (Return r, w')
      ∧ rng w' = rng Demo.fresh.
Proof.
  split; [reflexivity|].
  destruct (no_synthetic_rows_when_provider_answers Demo.lcg_uniform Demo.lcg_randint
              Demo.two_rows Demo.hub "XYZ" (ymd 2020 1 1) (ymd 2020 1 5)
              Demo.fresh eq_refl) as (r & w' & Hget & Hrng & _).
  by exists r, w'.
Defined.

(** The provider down and a stale file: rows of the range come back. *)
Lemma provider_down_still_rows_witness :
  plain_symbol "XYZ" = true
  ∧ ymd 2020 1 1 ≤ ymd 2020 1 5
  ∧ unusable (Demo.failing "XYZ" (ymd 2020 1 1) (ymd 2020 1 5) (net Demo.stale)).1 = true
  ∧ ∃ r w',
      get_ohlcv_data Demo.lcg_uniform Demo.lcg_randint Demo.failing Demo.hub "XYZ"
        (ymd 2020 1 1) (ymd 2020 1 5) Demo.stale = (Return r, w')
      ∧ r ≠ [].
Proof.
  assert (Hse : ymd 2020 1 1 ≤ ymd 2020 1 5) by (vm_compute; discriminate).
  split; [reflexivity|]. split; [exact Hse|]. split; [reflexivity|].
  destruct (provider_down_still_rows Demo.lcg_uniform Demo.lcg_randint Demo.failing
              Demo.hub "XYZ" (ymd 2020 1 1) (ymd 2020 1 5) Demo.stale
              eq_refl Hse eq_refl)
    as (r & w' & Hget & Hne & _).
  by exists r, w'.
Defined.

(** Five days cached, then a request for 2020-01-04 to 2020-01-10: the
    two shared days come back. *)
Lemma overlapping_request_served_from_file_witness :
  plain_symbol "XYZ" = true
  ∧ ymd 2020 1 1 ≤ ymd 2020 1 5
  ∧ files Demo.fresh !! csv_path Demo.hub "XYZ" = None
  ∧ unusable (Demo.failing "XYZ" (ymd 2020 1 1) (ymd 2020 1 5) (net Demo.fresh)).1 = true
  ∧ ymd 2020 1 1 `max` ymd 2020 1 4 ≤ ymd 2020 1 5 `min` ymd 2020 1 10
  ∧ ∃ df w1 r,
      get_ohlcv_data Demo.lcg_uniform Demo.lcg_randint Demo.failing Demo.hub "XYZ"
        (ymd 2020 1 1) (ymd 2020 1 5) Demo.fresh = (Return df, w1)
      ∧ get_ohlcv_data Demo.lcg_uniform Demo.lcg_randint Demo.failing Demo.hub "XYZ"
          (ymd 2020 1 4) (ymd 2020 1 10) w1 = (Return r, w1)
      ∧ Date <$> r = [ymd 2020 1 4; ymd 2020 1 5].
Proof.
  assert (Hse : ymd 2020 1 1 ≤ ymd 2020 1 5) by (vm_compute; discriminate).
  assert (Hov : ymd 2020 1 1 `max` ymd 2020 1 4 ≤ ymd 2020 1 5 `min` ymd 2020 1 10)
    by (vm_compute; discriminate).
  split; [reflexivity|].
  split; [exact Hse|]. split; [reflexivity|]. split; [reflexivity|].
  split; [exact Hov|].
  destruct (overlapping_request_served_from_file Demo.lcg_uniform Demo.lcg_randint
              Demo.failing Demo.hub "XYZ" (ymd 2020 1 1) (ymd 2020 1 5)
              (ymd 2020 1 4) (ymd 2020 1 10) Demo.fresh eq_refl Hse eq_refl eq_refl Hov)
    as (df & w1 & r & Hfirst & Hsecond & Hdates).
  exists df, w1, r. split; [exact Hfirst|]. split; [exact Hsecond|]. exact Hdates.
Defined.

(** An ordered file and a provider with ordered rows. *)
Lemma ohlc_ordering_kept_witness :
  map_Forall (λ _ df, Forall ohlc_ordered df) (files Demo.partly_cached)
  ∧ (∀ df, (Demo.two_rows "XYZ" (ymd 2021 1 1) (ymd 2021 1 5)
              (net Demo.partly_cached)).1 = Return df → Forall ohlc_ordered df)
  ∧ ∃ r w',
      get_ohlcv_data Demo.lcg_uniform Demo.lcg_randint Demo.two_rows Demo.hub "XYZ"
        (ymd 2021 1 1) (ymd 2021 1 5) Demo.partly_cached = (Return r, w')
      ∧ Forall ohlc_ordered r
      ∧ map_Forall (λ _ df, Forall ohlc_ordered df) (files w').
Proof.
  assert (Hfiles : map_Forall (λ _ df, Forall ohlc_ordered df)
                     (files Demo.partly_cached)).
  { apply map_Forall_singleton. exact two_days_ordered. }
  assert (Hprov : ∀ df, (Demo.two_rows "XYZ" (ymd 2021 1 1) (ymd 2021 1 5)
                           (net Demo.partly_cached)).1 = Return df
                        → Forall ohlc_ordered df).
  { intros df [= <-]. exact two_rows_ordered. }
  split; [exact Hfiles|]. split; [exact Hprov|].
  exact (ohlc_ordering_kept Demo.lcg_uniform Demo.lcg_randint Demo.two_rows Demo.hub
           "XYZ" (ymd 2021 1 1) (ymd 2021 1 5) Demo.partly_cached Hfiles Hprov).
Defined.

(** A file in date order and a provider with rows in date order. *)
Lemma date_order_kept_witness :
  map_Forall (λ _ df, increasing df) (files Demo.partly_cached)
  ∧ (∀ df, (Demo.two_rows "XYZ" (ymd 2021 1 1) (ymd 2021 1 5)
              (net Demo.partly_cached)).1 = Return df → increasing df)
  ∧ ∃ r w',
      get_ohlcv_data Demo.lcg_uniform Demo.lcg_randint Demo.two_rows Demo.hub "XYZ"
        (ymd 2021 1 1) (ymd 2021 1 5) Demo.partly_cached = (Return r, w')
      ∧ increasing r
      ∧ map_Forall (λ _ df, increasing df) (files w').
Proof.
  assert (Hfiles : map_Forall (λ _ df, increasing df) (files Demo.partly_cached)).
  { apply map_Forall_singleton. exact two_days_increasing. }
  assert (Hprov : ∀ df, (Demo.two_rows "XYZ" (ymd 2021 1 1) (ymd 2021 1 5)
                           (net Demo.partly_cached)).1 = Return df
                        → increasing df).
  { intros df [= <-]. exact two_rows_increasing. }
  split; [exact Hfiles|]. split; [exact Hprov|].
  exact (date_order_kept Demo.lcg_uniform Demo.lcg_randint Demo.two_rows Demo.hub
           "XYZ" (ymd 2021 1 1) (ymd 2021 1 5) Demo.partly_cached Hfiles Hprov).
Defined.

(** A request for QQQ next to a stored XYZ. *)
Lemma symbols_keep_separate_files_witness :
  plain_symbol "QQQ" = true ∧ plain_symbol "XYZ" = true ∧ "QQQ" ≠ "XYZ"
  ∧ ∃ r w',
      get_ohlcv_data Demo.lcg_uniform Demo.lcg_randint Demo.failing Demo.hub "QQQ"
        (ymd 2020 1 1) (ymd 2020 1 5) Demo.partly_cached = (Return r, w')
      ∧ files w' !! csv_path Demo.hub "XYZ" = Some Demo.two_days.
Proof.
  assert (Hne : "QQQ" ≠ "XYZ") by discriminate.
  split; [reflexivity|]. split; [reflexivity|]. split; [exact Hne|].
  destruct (symbols_keep_separate_files Demo.lcg_uniform Demo.lcg_randint Demo.failing
              Demo.hub "QQQ" "XYZ" (ymd 2020 1 1) (ymd 2020 1 5) Demo.partly_cached
              eq_refl eq_refl Hne) as (_ & r & w' & Hget & Hkeep).
  exists r, w'. split; [exact Hget|]. rewrite Hkeep. reflexivity.
Defined.

(** The script with the provider down and no files. *)
Lemma main_shows_five_synthetic_rows_witness :
  (∀ lo hi g, lo < hi → lo ≤ (Demo.lcg_randint lo hi g).1 < hi)
  ∧ files Demo.fresh !! "project100x/data/raw/QQQ.csv" = None
  ∧ unusable (Demo.failing "QQQ" (ymd 2020 1 1) (ymd 2020 1 5) (net Demo.fresh)).1 = true
  ∧ ∃ table w',
      main Demo.lcg_uniform Demo.lcg_randint Demo.failing Demo.fresh = (Return table, w')
      ∧ length table = 5%nat
      ∧ files w' !! "project100x/data/raw/QQQ.csv" = Some table.
Proof.
  split; [exact lcg_randint_range|]. split; [reflexivity|]. split; [reflexivity|].
  destruct (main_shows_five_synthetic_rows Demo.lcg_uniform Demo.lcg_randint
              Demo.failing lcg_randint_range Demo.fresh eq_refl eq_refl)
    as (table & w' & Hrun & Hdates & _ & _ & Hfile).
  exists table, w'. split; [exact Hrun|]. split; [|exact Hfile].
  rewrite <- (length_fmap Date), Hdates. reflexivity.
Defined.

(** A request from 2020-01-05 back to 2020-01-01 on a stored file, with a
    provider that has rows. *)
Lemma reversed_range_overwrites_file_witness :
  ymd 2020 1 1 < ymd 2020 1 5
  ∧ files Demo.partly_cached !! csv_path Demo.hub "XYZ" = Some Demo.two_days
  ∧ ∃ w',
      get_ohlcv_data Demo.lcg_uniform Demo.lcg_randint Demo.two_rows Demo.hub "XYZ"
        (ymd 2020 1 5) (ymd 2020 1 1) Demo.partly_cached = (Return [], w')
      ∧ files w' !! csv_path Demo.hub "XYZ"
        = Some [Demo.bar_at (ymd 2020 1 3); Demo.bar_at (ymd 2020 1 6)].
Proof.
  assert (Hes : ymd 2020 1 1 < ymd 2020 1 5) by reflexivity.
  split; [exact Hes|]. split; [reflexivity|].
  destruct (reversed_range_overwrites_file Demo.lcg_uniform Demo.lcg_randint
              Demo.two_rows Demo.hub "XYZ" (ymd 2020 1 5) (ymd 2020 1 1)
              Demo.partly_cached Demo.two_days Hes eq_refl)
    as (w' & Hget & Hnew & _).
  exists w'. split; [exact Hget|]. apply Hnew; [reflexivity|discriminate].
Defined.

(** A first request for XYZ with the provider down: five rows, stored. *)
Lemma own_file_stored_after_call_witness :
  plain_symbol "XYZ" = true
  ∧ ∃ r w',
      get_ohlcv_data Demo.lcg_uniform Demo.lcg_randint Demo.failing Demo.hub "XYZ"
        (ymd 2020 1 1) (ymd 2020 1 5) Demo.fresh = (Return r, w')
      ∧ is_Some (files w' !! csv_path Demo.hub "XYZ").
Proof.
  split; [reflexivity|].
  destruct (own_file_stored_after_call Demo.lcg_uniform Demo.lcg_randint Demo.failing
              Demo.hub "XYZ" (ymd 2020 1 1) (ymd 2020 1 5) Demo.fresh eq_refl)
    as (r & w' & kept & Hget & Hfile & _).
  exists r, w'. split; [exact Hget|]. by exists kept.
Defined.
